(** * A model of the reverse HTTP proxy of [httpx/proxy.go]

    The handler [ReverseProxy.ServeHTTP] and its helpers [serveCONNECT],
    [serveOPTIONS], [serveTRACE], [serveUpgrade] and [guessScheme] are
    embedded as functions that thread the state of the response writer and
    a log of the calls made to the collaborators (dialer, transports,
    connection takeover).  Header collections are finite maps from header
    names to lists of values, as [http.Header] is. *)

From Stdlib Require Import ZArith Ascii String List Lia DecimalString HexadecimalString.
From stdpp Require Import base option list strings gmap.

Local Open Scope string_scope.
Local Open Scope list_scope.
Local Open Scope Z_scope.

(** ** Byte strings *)

Module Str.

Definition is_upper (c : ascii) : bool :=
  (65 <=? nat_of_ascii c)%nat && (nat_of_ascii c <=? 90)%nat.

Definition is_lower (c : ascii) : bool :=
  (97 <=? nat_of_ascii c)%nat && (nat_of_ascii c <=? 122)%nat.

Definition is_digit (c : ascii) : bool :=
  (48 <=? nat_of_ascii c)%nat && (nat_of_ascii c <=? 57)%nat.

Definition to_upper (c : ascii) : ascii :=
  if is_lower c then ascii_of_nat (nat_of_ascii c - 32) else c.

Definition to_lower (c : ascii) : ascii :=
  if is_upper c then ascii_of_nat (nat_of_ascii c + 32) else c.

Fixpoint map (f : ascii -> ascii) (s : string) : string :=
  match s with
  | EmptyString => EmptyString
  | String c r => String (f c) (map f r)
  end.

Definition lower (s : string) : string := map to_lower s.

Fixpoint forallb (p : ascii -> bool) (s : string) : bool :=
  match s with
  | EmptyString => true
  | String c r => p c && forallb p r
  end.

Fixpoint existsb (p : ascii -> bool) (s : string) : bool :=
  match s with
  | EmptyString => false
  | String c r => p c || existsb p r
  end.

Definition contains (c : ascii) (s : string) : bool :=
  existsb (Ascii.eqb c) s.

(** [IndexByte]: position of the first [c] in [s]. *)
Fixpoint index_byte (c : ascii) (s : string) : option nat :=
  match s with
  | EmptyString => None
  | String d r =>
      if Ascii.eqb c d then Some O
      else match index_byte c r with
           | Some i => Some (S i)
           | None => None
           end
  end.

(** Position of the last [c] in [s]. *)
Fixpoint last_index_byte (c : ascii) (s : string) : option nat :=
  match s with
  | EmptyString => None
  | String d r =>
      match last_index_byte c r with
      | Some i => Some (S i)
      | None => if Ascii.eqb c d then Some O else None
      end
  end.

Fixpoint take (n : nat) (s : string) : string :=
  match n, s with
  | O, _ => EmptyString
  | S _, EmptyString => EmptyString
  | S m, String c r => String c (take m r)
  end.

Fixpoint drop (n : nat) (s : string) : string :=
  match n, s with
  | O, _ => s
  | S _, EmptyString => EmptyString
  | S m, String _ r => drop m r
  end.

(** [strings.Index]: position of the first occurrence of [sep]. *)
Fixpoint index (sep s : string) : option nat :=
  if String.prefix sep s then Some O
  else match s with
       | EmptyString => None
       | String _ r =>
           match index sep r with
           | Some i => Some (S i)
           | None => None
           end
       end.

(** Split at every [c]; the result is never empty. *)
Fixpoint split (c : ascii) (s : string) : list string :=
  match s with
  | EmptyString => [EmptyString]
  | String d r =>
      if Ascii.eqb c d then EmptyString :: split c r
      else match split c r with
           | w :: ws => String d w :: ws
           | [] => [String d EmptyString]
           end
  end.

Definition is_space (c : ascii) : bool :=
  Ascii.eqb c " " || Ascii.eqb c (ascii_of_nat 9).

Fixpoint trim_left (s : string) : string :=
  match s with
  | String c r => if is_space c then trim_left r else s
  | EmptyString => EmptyString
  end.

Fixpoint trim_right (s : string) : string :=
  match s with
  | EmptyString => EmptyString
  | String c r =>
      match trim_right r with
      | EmptyString => if is_space c then EmptyString else String c EmptyString
      | r' => String c r'
      end
  end.

Definition trim (s : string) : string := trim_right (trim_left s).

Fixpoint join (sep : string) (l : list string) : string :=
  match l with
  | [] => EmptyString
  | [x] => x
  | x :: r => x +:+ sep +:+ join sep r
  end.

Definition is_empty (s : string) : bool :=
  match s with EmptyString => true | _ => false end.

End Str.

(** ** [strconv] *)

Definition MaxInt64 : Z := 9223372036854775807.
Definition MinInt64 : Z := -9223372036854775808.

(** A Go [int] on a 64-bit platform: the value of [z] after wrap-around. *)
Definition wrap64 (z : Z) : Z :=
  (z + 2 ^ 63) mod 2 ^ 64 - 2 ^ 63.

Inductive error : Type :=
| ErrSyntax
| ErrRange
| ErrMissingHeader
| ErrIO (msg : string).

(** Value of a string of decimal digits, [None] when a byte is no digit. *)
Fixpoint digits_value (acc : Z) (s : string) : option Z :=
  match s with
  | EmptyString => Some acc
  | String c r =>
      if Str.is_digit c
      then digits_value (10 * acc + (Z.of_nat (nat_of_ascii c) - 48)) r
      else None
  end.

(** [strconv.Atoi]: an optional sign and at least one decimal digit; a value
    outside of the [int] range is reported with the nearest bound. *)
Definition Atoi (s : string) : Z * option error :=
  let '(neg, body) :=
    match s with
    | String "-" r => (true, r)
    | String "+" r => (false, r)
    | _ => (false, s)
    end in
  match body with
  | EmptyString => (0, Some ErrSyntax)
  | _ =>
      match digits_value 0 body with
      | None => (0, Some ErrSyntax)
      | Some n =>
          let v := if neg then - n else n in
          if v <? MinInt64 then (MinInt64, Some ErrRange)
          else if MaxInt64 <? v then (MaxInt64, Some ErrRange)
          else (v, None)
      end
  end.

(** [strconv.Itoa]. *)
Definition Itoa (z : Z) : string :=
  DecimalString.NilZero.string_of_int (Z.to_int z).

(** ** [net.SplitHostPort] and [netx.SplitNetAddr] *)

(** [net.SplitHostPort] of the Go library: the port follows the last colon;
    a host in brackets ends just before that colon; every failure returns
    two empty strings and an error. *)
Definition SplitHostPort (hostport : string) : string * string * option error :=
  let fail := (EmptyString, EmptyString, Some ErrSyntax) in
  match Str.last_index_byte ":" hostport with
  | None => fail
  | Some i =>
      let port := Str.drop (S i) hostport in
      match hostport with
      | String "[" _ =>
          match Str.index_byte "]" hostport with
          | None => fail
          | Some e =>
              if (S e =? i)%nat then
                if Str.contains "[" (Str.drop 1 hostport) then fail
                else if Str.contains "]" (Str.drop (S e) hostport) then fail
                else (Str.take (e - 1) (Str.drop 1 hostport), port, None)
              else fail
          end
      | _ =>
          let host := Str.take i hostport in
          if Str.contains ":" host then fail
          else if Str.contains "[" hostport then fail
          else if Str.contains "]" hostport then fail
          else (host, port, None)
      end
  end.

(** Modelled from the spec: [netx.SplitNetAddr] is not part of the handler's
    file.  The local listener address "may carry a transport tag"; the tag
    is what precedes [://], and an address without it has an empty tag. *)
Definition SplitNetAddr (s : string) : string * string :=
  match Str.index "://" s with
  | Some i => (Str.take i s, Str.drop (i + 3) s)
  | None => (EmptyString, s)
  end.

(** ** [http.Header] *)

Abbreviation Header := (gmap string (list string)).

Definition validHeaderFieldByte (c : ascii) : bool :=
  Str.is_upper c || Str.is_lower c || Str.is_digit c
  || Str.contains c "!#$%&'*+-.^_`|~".

Fixpoint canonicalize (upper : bool) (s : string) : string :=
  match s with
  | EmptyString => EmptyString
  | String c r =>
      let c' := if upper then Str.to_upper c else Str.to_lower c in
      String c' (canonicalize (Ascii.eqb c' "-") r)
  end.

(** [textproto.CanonicalMIMEHeaderKey]: a name with a byte that is not a
    token byte is returned as it is. *)
Definition CanonicalMIMEHeaderKey (s : string) : string :=
  if Str.forallb validHeaderFieldByte s then canonicalize true s else s.

(** [h.Get(key)]: the first value stored under the canonical key. *)
Definition HeaderGet (h : Header) (key : string) : string :=
  match h !! CanonicalMIMEHeaderKey key with
  | Some (v :: _) => v
  | _ => EmptyString
  end.

(** [h.Set(key, value)]. *)
Definition HeaderSet (h : Header) (key value : string) : Header :=
  <[CanonicalMIMEHeaderKey key := [value]]> h.

(** [h.Del(key)]. *)
Definition HeaderDel (h : Header) (key : string) : Header :=
  delete (CanonicalMIMEHeaderKey key) h.

(** [_, ok := h[key]]: presence of the key as written. *)
Definition HeaderHas (h : Header) (key : string) : bool :=
  match h !! key with Some _ => true | None => false end.

(** [h[key]]: the values stored under the key as written ([nil] if none). *)
Definition HeaderValues (h : Header) (key : string) : list string :=
  default [] (h !! key).

(** ** Helpers of the package that live outside of [proxy.go] *)

(** Modelled from the spec: [copyHeader] is not part of the handler's file.
    Every field of [from] is stored into [to]; the values of a finite map
    are never shared, so the copy is an owned one. *)
Definition copyHeader (to from : Header) : Header := from ∪ to.

(** Modelled from the spec: the fixed part of the HopByHopSet. *)
Definition hopFields : list string :=
  [ "Connection"; "Keep-Alive"; "Proxy-Authenticate"; "Proxy-Authorization";
    "TE"; "Trailers"; "Transfer-Encoding"; "Upgrade" ].

(** The names listed in the values of a header: the elements between commas,
    without the surrounding white space. *)
Definition headerTokens (values : list string) : list string :=
  concat (List.map (fun v => List.map Str.trim (Str.split "," v)) values).

Definition delAll (h : Header) (names : list string) : Header :=
  fold_left HeaderDel names h.

(** Modelled from the spec: [deleteHopFields] is not part of the handler's
    file.  It removes "every name in HopByHopSet, including names listed as
    values of a Connection header". *)
Definition deleteHopFields (h : Header) : Header :=
  delAll (delAll h (headerTokens (HeaderValues h "Connection"))) hopFields.

(** Modelled from the spec: [connectionUpgrade] is not part of the handler's
    file.  The Connection header "requests an upgrade" when it lists the
    [upgrade] token; the result is then the Upgrade header's token. *)
Definition connectionUpgrade (h : Header) : string :=
  if List.existsb (fun t => String.eqb (Str.lower t) "upgrade")
       (headerTokens (HeaderValues h "Connection"))
  then HeaderGet h "Upgrade"
  else EmptyString.

(** Modelled from the spec: [maxForwards] is not part of the handler's file.
    It "reads Max-Forwards as an integer"; an absent header is an error, as
    an unparsable one is. *)
Definition maxForwards (h : Header) : Z * option error :=
  if HeaderHas h "Max-Forwards"
  then Atoi (HeaderGet h "Max-Forwards")
  else (0, Some ErrMissingHeader).

Definition dquote : string := String (ascii_of_nat 34) EmptyString.

Fixpoint count_byte (c : ascii) (s : string) : nat :=
  match s with
  | EmptyString => O
  | String d r => (if Ascii.eqb c d then 1 else 0) + count_byte c r
  end.

(** Modelled from the spec: the RFC 7239 quoting of a node, "IPv6 literals
    bracketed and quoted". *)
Definition quoteForwarded (s : string) : string :=
  if (2 <=? count_byte ":" s)%nat
  then dquote +:+ "[" +:+ s +:+ "]" +:+ dquote
  else s.

(** A hop record: the fields that are present, in the given order. *)
Definition hopRecord (fields : list (string * string)) : string :=
  Str.join ";"
    (List.map (fun kv => fst kv +:+ "=" +:+ snd kv)
       (List.filter (fun kv => negb (Str.is_empty (snd kv))) fields)).

(** The hop that the legacy headers of a request describe. *)
Definition legacyHop (h : Header) : string :=
  hopRecord
    [ ("for", quoteForwarded (HeaderGet h "X-Forwarded-For"));
      ("host", HeaderGet h "X-Forwarded-Host");
      ("proto", HeaderGet h "X-Forwarded-Proto") ].

(** Modelled from the spec: [translateXForwarded] is not part of the
    handler's file.  When the headers have no Forwarded key, one hop is
    synthesized from the legacy headers that are present; absent fields
    are omitted, and no legacy header at all gives no hop. *)
Definition translateXForwarded (h : Header) : Header :=
  if HeaderHas h "Forwarded" then h
  else if Str.is_empty (legacyHop h) then h
  else HeaderSet h "Forwarded" (legacyHop h).

(** The hop that this proxy records for itself. *)
Definition forwardedHop (proto forAddr byAddr : string) : string :=
  hopRecord
    [ ("proto", proto);
      ("for", quoteForwarded (fst (fst (SplitHostPort forAddr))));
      ("by", quoteForwarded byAddr) ].

(** Modelled from the spec: [addForwarded] is not part of the handler's
    file.  It "appends one hop record" to the hops already there. *)
Definition addForwarded (h : Header) (proto forAddr byAddr : string) : Header :=
  HeaderSet h "Forwarded"
    (Str.join ", " (HeaderValues h "Forwarded" ++ [forwardedHop proto forAddr byAddr])).

(** Modelled from the spec: the "opaque token" that stands for an
    unavailable local address in a Via entry. *)
Definition viaPseudonym : string := "_".

Definition viaEntry (version localAddr : string) : string :=
  version +:+ " " +:+ (if Str.is_empty localAddr then viaPseudonym else localAddr).

(** Modelled from the spec: [addVia] is not part of the handler's file.  The
    entry is "comma-joined with any prior value". *)
Definition addVia (h : Header) (version localAddr : string) : Header :=
  HeaderSet h "Via"
    (Str.join ", " (HeaderValues h "Via" ++ [viaEntry version localAddr])).

(** ** Requests, responses and the collaborators *)

Record URL : Type := mkURL {
  URLScheme : string;
  URLHost : string;
  URLPath : string;
  URLRawQuery : string
}.

(** A body stream: the bytes it yields and the error, if any, that ends it. *)
Record body : Type := mkBody {
  bodyData : string;
  bodyErr : option error
}.

(** What the request's context holds under [http.LocalAddrContextKey]. *)
Inductive ctxValue : Type :=
| CtxNil
| CtxAddr (addr : string)
| CtxOther.

Record Request : Type := mkRequest {
  Method : string;
  reqURL : URL;
  Proto : string;
  ProtoMajor : Z;
  ProtoMinor : Z;
  reqHeader : Header;
  reqBody : body;
  TransferEncoding : list string;
  Close : bool;
  Host : string;
  RemoteAddr : string;
  RequestURI : string;
  LocalAddrValue : ctxValue
}.

Record Response : Type := mkResponse {
  StatusCode : Z;
  resHeader : Header;
  resBody : body;
  Trailer : Header
}.

Definition withURL (r : Request) (u : URL) : Request :=
  mkRequest (Method r) u (Proto r) (ProtoMajor r) (ProtoMinor r) (reqHeader r)
    (reqBody r) (TransferEncoding r) (Close r) (Host r) (RemoteAddr r)
    (RequestURI r) (LocalAddrValue r).

Definition withHeader (r : Request) (h : Header) : Request :=
  mkRequest (Method r) (reqURL r) (Proto r) (ProtoMajor r) (ProtoMinor r) h
    (reqBody r) (TransferEncoding r) (Close r) (Host r) (RemoteAddr r)
    (RequestURI r) (LocalAddrValue r).

Definition withProto (r : Request) (p : string) (major minor : Z) : Request :=
  mkRequest (Method r) (reqURL r) p major minor (reqHeader r)
    (reqBody r) (TransferEncoding r) (Close r) (Host r) (RemoteAddr r)
    (RequestURI r) (LocalAddrValue r).

Definition withClose (r : Request) (c : bool) : Request :=
  mkRequest (Method r) (reqURL r) (Proto r) (ProtoMajor r) (ProtoMinor r)
    (reqHeader r) (reqBody r) (TransferEncoding r) c (Host r) (RemoteAddr r)
    (RequestURI r) (LocalAddrValue r).

Definition StatusOK : Z := 200.
Definition StatusSwitchingProtocols : Z := 101.
Definition StatusBadRequest : Z := 400.
Definition StatusInternalServerError : Z := 500.
Definition StatusBadGateway : Z := 502.

Definition MethodConnect : string := "CONNECT".
Definition MethodOptions : string := "OPTIONS".
Definition MethodTrace : string := "TRACE".

(** A request/response exchange. *)
Definition RoundTripper : Type := Request -> Response + error.

(** A dialer, from the network and the address; [None] is a connection. *)
Definition DialFunc : Type := string -> string -> option error.

(** The fields of the proxy; an absent one is Go's [nil].  The TLS client
    settings are only handed to [tls.Client] and have no content here. *)
Record ReverseProxy : Type := mkReverseProxy {
  Transport : option RoundTripper;
  DialContext : option DialFunc
}.

(** The outcome of [w.(http.Hijacker).Hijack()]. *)
Inductive hijackResult : Type :=
| NotAHijacker
| HijackFailed (err : error)
| Hijacked.

(** What surrounds one call of the handler: the defaults of the Go library,
    the exchange that [ConnTransport] performs over the dialled connection,
    and the answers of the serving layer. *)
Record World : Type := mkWorld {
  DefaultTransport : RoundTripper;
  DefaultDialer : DialFunc;
  ConnTransport : RoundTripper;
  Hijack : hijackResult;
  Flush : option error
}.

(** The calls that the handler makes, in the order it makes them. *)
Inductive event : Type :=
| EvWriteHeader (status : Z) (header : Header)
| EvWrite (content : string)
| EvCopyBody (b : body)
| EvCloseBody
| EvDiscardBody
| EvDial (network address : string)
| EvTLSClient
| EvRoundTrip (outreq : Request)
| EvConnRoundTrip (outreq : Request)
| EvHijack
| EvFlush
| EvRelay
| EvCloseFrontend
| EvCloseBackend
| EvCancel
| EvJoinWait.

(** ** The handler's effects *)

(** The response writer's header map and the calls made so far. *)
Record state : Type := mkState {
  wHeader : Header;
  calls : list event
}.

Inductive result (A : Type) : Type :=
| Returned (a : A) (s : state)
| Panicked (err : option error) (s : state).

Arguments Returned {A} a s.
Arguments Panicked {A} err s.

Definition M (A : Type) : Type := state -> result A.

Definition ret {A : Type} (a : A) : M A := fun s => Returned a s.

Definition bind {A B : Type} (k : A -> M B) (m : M A) : M B :=
  fun s =>
    match m s with
    | Returned a s' => k a s'
    | Panicked e s' => Panicked e s'
    end.

#[export] Instance M_ret : MRet M := @ret.
#[export] Instance M_bind : MBind M := @bind.

Definition call (e : event) : M unit :=
  fun s => Returned tt (mkState (wHeader s) (calls s ++ [e])).

Definition panic {A : Type} (err : option error) : M A :=
  fun s => Panicked err s.

(** [w.WriteHeader(status)], with the header map as it is at the call. *)
Definition WriteHeader (status : Z) : M unit :=
  fun s => call (EvWriteHeader status (wHeader s)) s.

(** A change of the map that [w.Header()] returns. *)
Definition updateHeader (f : Header -> Header) : M unit :=
  fun s => Returned tt (mkState (f (wHeader s)) (calls s)).

(** [defer cleanup] followed by [body]: the clean-up runs when the body
    returns and when it panics. *)
Definition defer {A : Type} (cleanup : M unit) (body : M A) : M A :=
  fun s =>
    match body s with
    | Returned a s' =>
        match cleanup s' with
        | Returned _ s'' => Returned a s''
        | Panicked e s'' => Panicked e s''
        end
    | Panicked e s' =>
        match cleanup s' with
        | Returned _ s'' => Panicked e s''
        | Panicked e' s'' => Panicked e' s''
        end
    end.

Definition resultState {A : Type} (r : result A) : state :=
  match r with
  | Returned _ s => s
  | Panicked _ s => s
  end.

(** A fresh response writer. *)
Definition fresh : state := mkState ∅ [].

(** ** [httputil.DumpRequest] *)

Definition crlf : string :=
  String (ascii_of_nat 13) (String (ascii_of_nat 10) EmptyString).

(** [u.RequestURI()]: the path, [/] when it is empty, and the query. *)
Definition URLRequestURI (u : URL) : string :=
  (if Str.is_empty (URLPath u) then "/" else URLPath u)
  +:+ (if Str.is_empty (URLRawQuery u) then EmptyString else "?" +:+ URLRawQuery u).

Fixpoint insertField (kv : string * list string) (l : list (string * list string))
  : list (string * list string) :=
  match l with
  | [] => [kv]
  | x :: r => if String.leb (fst kv) (fst x) then kv :: l else x :: insertField kv r
  end.

(** The fields of a header in the order of their names. *)
Definition sortedFields (h : Header) : list (string * list string) :=
  fold_right insertField [] (map_to_list h).

Definition headerNewlineToSpace (v : string) : string :=
  Str.map (fun c =>
    if Ascii.eqb c (ascii_of_nat 10) || Ascii.eqb c (ascii_of_nat 13)
    then " "%char else c) v.

(** One line for each value of a field. *)
Definition fieldLines (kv : string * list string) : list string :=
  List.map (fun v => fst kv +:+ ": " +:+ Str.trim (headerNewlineToSpace v) +:+ crlf)
    (snd kv).

(** [h.WriteSubset(w, exclude)]: the lines of the header. *)
Definition headerLines (h : Header) (exclude : list string) : list string :=
  concat (List.map fieldLines
    (List.filter (fun kv => negb (List.existsb (String.eqb (fst kv)) exclude))
       (sortedFields h))).

Definition reqWriteExcludeHeader : list string :=
  [ "Host"; "Transfer-Encoding"; "Trailer" ].

Definition hexLength (s : string) : string :=
  HexadecimalString.NilZero.string_of_uint (N.to_hex_uint (N.of_nat (String.length s))).

(** The body as [DumpRequest] copies it, through a chunked writer when the
    first transfer encoding is [chunked] (a body that fits one buffer of
    the copy is one chunk). *)
Definition dumpBody (chunked : bool) (data : string) : string :=
  if chunked then
    (if Str.is_empty data then EmptyString
     else hexLength data +:+ crlf +:+ data +:+ crlf)
    +:+ "0" +:+ crlf +:+ crlf
  else data.

Definition dumpRequestLine (req : Request) : string :=
  (if Str.is_empty (Method req) then "GET" else Method req) +:+ " "
  +:+ (if Str.is_empty (RequestURI req) then URLRequestURI (reqURL req) else RequestURI req)
  +:+ " HTTP/" +:+ Itoa (ProtoMajor req) +:+ "." +:+ Itoa (ProtoMinor req) +:+ crlf.

Definition dumpHostLines (req : Request) : list string :=
  if String.prefix "http://" (RequestURI req) || String.prefix "https://" (RequestURI req)
  then []
  else
    let host := if Str.is_empty (Host req) then URLHost (reqURL req) else Host req in
    if Str.is_empty host then [] else ["Host: " +:+ host +:+ crlf].

Definition dumpTransferLines (req : Request) : list string :=
  match TransferEncoding req with
  | [] => []
  | te => ["Transfer-Encoding: " +:+ Str.join "," te +:+ crlf]
  end.

Definition dumpCloseLines (req : Request) : list string :=
  if Close req then ["Connection: close" +:+ crlf] else [].

(** [httputil.DumpRequest(req, true)] of the Go library: it fails when the
    body cannot be read to its end, and otherwise renders the request line,
    the lines taken from the request's fields, the lines of the header map,
    an empty line and the body. *)
Definition DumpRequest (req : Request) : string + error :=
  match bodyErr (reqBody req) with
  | Some err => inr err
  | None =>
      let chunked :=
        match TransferEncoding req with
        | te :: _ => String.eqb te "chunked"
        | [] => false
        end in
      inl (dumpRequestLine req
           +:+ Str.join EmptyString
                 (dumpHostLines req ++ dumpTransferLines req ++ dumpCloseLines req
                  ++ headerLines (reqHeader req) reqWriteExcludeHeader)
           +:+ crlf +:+ dumpBody chunked (bodyData (reqBody req)))
  end.

(** ** [proxy.go] *)

(** [contextLocalAddr]: the address stored in the context, [nil] when the
    context has no value or a value that is no [net.Addr]. *)
Definition contextLocalAddr (ctx : ctxValue) : option string :=
  match ctx with
  | CtxNil => None
  | CtxAddr addr => Some addr
  | CtxOther => None
  end.

(** [requestLocalAddr]. *)
Definition requestLocalAddr (req : Request) : string :=
  match contextLocalAddr (LocalAddrValue req) with
  | None => EmptyString
  | Some addr => addr
  end.

(** [guessScheme]. *)
Definition guessScheme (localAddr remoteAddr : string) : string :=
  if String.eqb (fst (SplitNetAddr localAddr)) "tls" then "https"
  else
    let port := snd (fst (SplitHostPort remoteAddr)) in
    if String.eqb port EmptyString || String.eqb port "80" then "http"
    else if String.eqb port "443" then "https"
    else "http".

(** Modelled from the spec: [protoVersion] is not part of the handler's
    file.  It is the protocol version of a Via entry, major and minor. *)
Definition protoVersion (req : Request) : string :=
  Itoa (ProtoMajor req) +:+ "." +:+ Itoa (ProtoMinor req).

(** The dialer of [serveCONNECT] and [serveUpgrade]: [p.DialContext], or the
    dialer of the Go library when it is [nil]. *)
Definition dialer (p : ReverseProxy) (env : World) : DialFunc :=
  match DialContext p with
  | None => DefaultDialer env
  | Some dial => dial
  end.

(** The transport of [ServeHTTP]: [p.Transport], or [http.DefaultTransport]
    when it is [nil]. *)
Definition roundTripper (p : ReverseProxy) (env : World) : RoundTripper :=
  match Transport p with
  | None => DefaultTransport env
  | Some transport => transport
  end.

(** [serveOPTIONS]. *)
Definition serveOPTIONS (req : Request) : M unit :=
  WriteHeader StatusOK.

(** [serveTRACE]. *)
Definition serveTRACE (req : Request) : M unit :=
  match DumpRequest req with
  | inr err => panic (Some err)
  | inl content =>
      updateHeader (fun h => HeaderSet h "Content-Type" "message/http");;
      WriteHeader StatusOK;;
      call (EvWrite content)
  end.

(** [serveCONNECT].  The two relay goroutines and the wait for the context
    are the single call [EvRelay]; the deferred calls follow it in the
    order in which Go runs them. *)
Definition serveCONNECT (p : ReverseProxy) (env : World) (req : Request) : M unit :=
  defer (call EvJoinWait)
    (defer (call EvCancel)
       (call (EvDial "tcp" (URLHost (reqURL req)));;
        match dialer p env "tcp" (URLHost (reqURL req)) with
        | Some _ => WriteHeader StatusBadGateway
        | None =>
            defer (call EvCloseBackend)
              (call EvDiscardBody;;
               call EvCloseBody;;
               WriteHeader StatusOK;;
               call EvHijack;;
               match Hijack env with
               | NotAHijacker => panic None
               | HijackFailed err => panic (Some err)
               | Hijacked => defer (call EvCloseFrontend) (call EvRelay)
               end)
        end)).

(** The response headers that [serveUpgrade] hands to the client. *)
Definition upgradeResponseHeader (res : Response) : Header :=
  let upgrade := HeaderValues (resHeader res) "Upgrade" in
  let h := deleteHopFields (resHeader res) in
  if (length upgrade =? 0)%nat then h
  else <["Connection" := ["Upgrade"]]> (<["Upgrade" := upgrade]> h).

(** [serveUpgrade].  The two [forward] goroutines and the [select] are the
    single call [EvRelay]. *)
Definition serveUpgrade (p : ReverseProxy) (env : World) (req : Request) : M unit :=
  call (EvDial "tcp" (URLHost (reqURL req)));;
  match dialer p env "tcp" (URLHost (reqURL req)) with
  | Some _ => WriteHeader StatusBadGateway
  | None =>
      (if String.eqb (URLScheme (reqURL req)) "https" then call EvTLSClient else mret tt);;
      defer (call EvCloseBackend)
        (call (EvConnRoundTrip req);;
         match ConnTransport env req with
         | inr _ => WriteHeader StatusBadGateway
         | inl res =>
             updateHeader (fun h => copyHeader h (upgradeResponseHeader res));;
             WriteHeader (StatusCode res);;
             call (EvCopyBody (resBody res));;
             call EvCloseBody;;
             if negb (StatusCode res =? StatusSwitchingProtocols) then mret tt
             else
               call EvHijack;;
               match Hijack env with
               | NotAHijacker => panic None
               | HijackFailed _ => WriteHeader StatusInternalServerError
               | Hijacked =>
                   defer (call EvCloseFrontend)
                     (call EvFlush;;
                      match Flush env with
                      | Some _ => mret tt
                      | None => call EvRelay
                      end)
               end
         end)
  end.

(** The outbound request as [ServeHTTP] has it once the hop-by-hop headers
    are removed: the copy of the request pinned to HTTP/1.1, its URL
    completed from the Host header and from [guessScheme], and the copied
    and stripped headers. *)
Definition outboundURL (req : Request) : URL :=
  let localAddr := requestLocalAddr req in
  let outurl := reqURL req in
  let outurl :=
    if (String.length (URLHost outurl) =? 0)%nat
    then mkURL (URLScheme outurl) (Host req) (URLPath outurl) (URLRawQuery outurl)
    else outurl in
  if (String.length (URLScheme outurl) =? 0)%nat
  then mkURL (guessScheme localAddr (URLHost (reqURL req)))
         (URLHost outurl) (URLPath outurl) (URLRawQuery outurl)
  else outurl.

Definition outbound (req : Request) : Request :=
  let outreq := withURL req (outboundURL req) in
  let outreq := withProto outreq "HTTP/1.1" 1 1 in
  let outreq := withClose outreq false in
  withHeader outreq (deleteHopFields (copyHeader ∅ (reqHeader req))).

(** The proxy headers: Forwarded, converted from the legacy headers when
    there is none, then this proxy's own hop and its Via entry. *)
Definition proxyHeaders (req outreq : Request) : Header :=
  let remoteAddr := RemoteAddr req in
  let localAddr := requestLocalAddr req in
  let h := reqHeader outreq in
  let h := if HeaderHas h "Forwarded" then h else translateXForwarded h in
  let h := addForwarded h (URLScheme (reqURL outreq)) remoteAddr localAddr in
  addVia h (protoVersion req) localAddr.

(** The end of [ServeHTTP]: the protocol upgrade, or the exchange through
    the transport and the copy of the response. *)
Definition forwardRequest (p : ReverseProxy) (env : World)
    (req outreq : Request) : M unit :=
  let upgrade := connectionUpgrade (reqHeader req) in
  if negb (String.length upgrade =? 0)%nat then
    let h := HeaderSet (reqHeader outreq) "Connection" "Upgrade" in
    let h := HeaderSet h "Upgrade" upgrade in
    serveUpgrade p env (withHeader outreq h)
  else
    let transport := roundTripper p env in
    call (EvRoundTrip outreq);;
    match transport outreq with
    | inr _ => WriteHeader StatusBadGateway
    | inl res =>
        updateHeader (fun h => copyHeader h (deleteHopFields (resHeader res)));;
        WriteHeader (StatusCode res);;
        call (EvCopyBody (resBody res));;
        call EvCloseBody;;
        updateHeader (fun h => copyHeader h (deleteHopFields (Trailer res)))
    end.

(** [ServeHTTP]. *)
Definition ServeHTTP (p : ReverseProxy) (env : World) (req : Request) : M unit :=
  let outreq := outbound req in
  if (String.length (URLHost (reqURL outreq)) =? 0)%nat then
    WriteHeader StatusBadRequest
  else
    let outreq := withHeader outreq (proxyHeaders req outreq) in
    let method := Method outreq in
    if String.eqb method MethodConnect then
      serveCONNECT p env outreq
    else if String.eqb method MethodTrace || String.eqb method MethodOptions then
      let '(max, err) := maxForwards (reqHeader outreq) in
      let max := wrap64 (max - 1) in
      if (max =? 0) || bool_decide (is_Some err) then
        if String.eqb method MethodTrace
        then serveTRACE outreq
        else serveOPTIONS outreq
      else
        forwardRequest p env req
          (withHeader outreq (HeaderSet (reqHeader outreq) "Max-Forward" (Itoa max)))
    else
      forwardRequest p env req outreq.

(** The outbound request with the proxy headers, as [ServeHTTP] has it when
    it chooses among the tunnel, the local answer and the forwarding. *)
Definition proxied (req : Request) : Request :=
  withHeader (outbound req) (proxyHeaders req (outbound req)).

(** The calls of one run of the handler on a fresh response writer. *)
Definition run (m : M unit) : list event := calls (resultState (m fresh)).

(** ** What a log of calls shows *)

(** The requests handed to the transport. *)
Definition transported (l : list event) : list Request :=
  omap (fun e => match e with EvRoundTrip r => Some r | _ => None end) l.

(** The requests sent over a dedicated backend connection. *)
Definition upgraded (l : list event) : list Request :=
  omap (fun e => match e with EvConnRoundTrip r => Some r | _ => None end) l.

(** The addresses dialled. *)
Definition dialled (l : list event) : list string :=
  omap (fun e => match e with EvDial _ a => Some a | _ => None end) l.

(** The statuses written to the client, with the headers sent with them. *)
Definition responses (l : list event) : list (Z * Header) :=
  omap (fun e => match e with EvWriteHeader st h => Some (st, h) | _ => None end) l.

(** A header name is hop-by-hop for a collection when it is in the fixed
    set or is listed in the collection's Connection header. *)
Definition hopName (h : Header) (name : string) : Prop :=
  In name hopFields \/ In name (headerTokens (HeaderValues h "Connection")).

(** A collection without any header of the fixed hop-by-hop set. *)
Definition hopFree (h : Header) : Prop :=
  forall name, In name hopFields -> h !! CanonicalMIMEHeaderKey name = None.

(** The same, but for the two headers that the upgrade path adds again. *)
Definition hopFreeButUpgrade (h : Header) : Prop :=
  forall name, In name hopFields ->
    CanonicalMIMEHeaderKey name <> "Connection" ->
    CanonicalMIMEHeaderKey name <> "Upgrade" ->
    h !! CanonicalMIMEHeaderKey name = None.

(** A route that answers by itself: nothing is sent to a backend, and the
    headers given to the client have no hop-by-hop header. *)
Definition local_route (m : M unit) : Prop :=
  transported (run m) = []
  /\ upgraded (run m) = []
  /\ (forall st h, In (st, h) (responses (run m)) -> hopFree h)
  /\ hopFree (wHeader (resultState (m fresh))).

(** Calls that forward [outreq], with the header map [final] that the
    response writer is left with: the transport gets this request, a
    dedicated backend connection gets it with the two upgrade headers, and
    the headers given to the client are stripped. *)
Definition forwards (p : ReverseProxy) (env : World) (outreq : Request)
    (l : list event) (final : Header) : Prop :=
  (forall r, In r (transported l) -> r = outreq)
  /\ (forall r, In r (upgraded l) ->
       exists upgrade,
         r = withHeader outreq
               (HeaderSet (HeaderSet (reqHeader outreq) "Connection" "Upgrade")
                  "Upgrade" upgrade))
  /\ (forall st h, In (st, h) (responses l) ->
       hopFreeButUpgrade h /\ (upgraded l = [] -> hopFree h))
  /\ (hopFreeButUpgrade final /\ (upgraded l = [] -> hopFree final))
  /\ (forall r res st h name,
       In r (transported l) -> roundTripper p env r = inl res ->
       In (st, h) (responses l) -> hopName (resHeader res) name ->
       h !! CanonicalMIMEHeaderKey name = None)
  /\ (forall r res st h name,
       In r (upgraded l) -> ConnTransport env r = inl res ->
       In (st, h) (responses l) -> hopName (resHeader res) name ->
       CanonicalMIMEHeaderKey name <> "Connection" ->
       CanonicalMIMEHeaderKey name <> "Upgrade" ->
       h !! CanonicalMIMEHeaderKey name = None).

Definition forward_route (p : ReverseProxy) (env : World) (outreq : Request)
    (m : M unit) : Prop :=
  forwards p env outreq (run m) (wHeader (resultState (m fresh))).

(** ** Sample requests and collaborators *)

Module Sample.

Definition emptyBody : body := mkBody EmptyString None.

(** A body whose stream fails before its end. *)
Definition brokenBody : body :=
  mkBody EmptyString (Some (ErrIO "unexpected EOF")).

(** An HTTP/1.0 request for [http://example.com/], received on
    [127.0.0.1:80] from [10.0.0.1:5555]. *)
Definition request (method : string) (h : Header) (b : body) : Request :=
  mkRequest method (mkURL "http" "example.com" "/" EmptyString)
    "HTTP/1.0" 1 0 h b [] false "example.com" "10.0.0.1:5555"
    "http://example.com/" (CtxAddr "127.0.0.1:80").

Definition options (maxForwards : string) : Request :=
  request "OPTIONS" (<["Max-Forwards" := [maxForwards]]> ∅) emptyBody.

Definition trace : Request := request "TRACE" ∅ emptyBody.

Definition traceBroken : Request := request "TRACE" ∅ brokenBody.

(** A GET request that lists [name] in its Connection header. *)
Definition getListing (name : string) : Request :=
  request "GET" (<["Connection" := [name]]> (<[name := ["old"]]> ∅)) emptyBody.

Definition upgradeRequest : Request :=
  request "GET"
    (<["Connection" := ["Upgrade"]]> (<["Upgrade" := ["websocket"]]> ∅))
    emptyBody.

(** A request without any target host. *)
Definition noHost : Request :=
  mkRequest "GET" (mkURL EmptyString EmptyString "/" EmptyString)
    "HTTP/1.1" 1 1 ∅ emptyBody [] false EmptyString "10.0.0.1:5555"
    "/" (CtxAddr "127.0.0.1:80").


Definition backendResponse : Response :=
  mkResponse 200 (<["X-Foo" := ["1"]]> ∅) (mkBody "hi" None) ∅.

Definition switching : Response :=
  mkResponse 101
    (<["Connection" := ["Upgrade"]]> (<["Upgrade" := ["websocket"]]> ∅))
    emptyBody ∅.

Definition proxy : ReverseProxy := mkReverseProxy None None.

(** Every backend is reached and answers 200. *)
Definition env : World :=
  mkWorld (fun _ => inl backendResponse) (fun _ _ => None)
    (fun _ => inl backendResponse) Hijacked None.

(** The backend accepts the protocol switch. *)
Definition envSwitching : World :=
  mkWorld (fun _ => inl backendResponse) (fun _ _ => None)
    (fun _ => inl switching) Hijacked None.

End Sample.

(** ** Collaborators that fail *)

Module Failing.

(** No backend can be reached. *)
Definition envNoDial : World :=
  mkWorld (fun _ => inr (ErrIO "connection refused"))
    (fun _ _ => Some (ErrIO "connection refused"))
    (fun _ => inr (ErrIO "connection refused")) Hijacked None.

(** The backend is reached, but the exchange with it fails. *)
Definition envNoAnswer : World :=
  mkWorld (fun _ => inr (ErrIO "EOF")) (fun _ _ => None)
    (fun _ => inr (ErrIO "EOF")) Hijacked None.

(** The backend accepts the protocol switch, and the serving layer fails
    to hand over the client connection. *)
Definition envNoHijack : World :=
  mkWorld (fun _ => inl Sample.backendResponse) (fun _ _ => None)
    (fun _ => inl Sample.switching) (HijackFailed (ErrIO "hijacked twice")) None.

(** The backend accepts the protocol switch, and the response writer is no
    [http.Hijacker]. *)
Definition envNotAHijacker : World :=
  mkWorld (fun _ => inl Sample.backendResponse) (fun _ _ => None)
    (fun _ => inl Sample.switching) NotAHijacker None.

(** The backend accepts the protocol switch, and the client is gone when
    the buffered writer is flushed. *)
Definition envNoFlush : World :=
  mkWorld (fun _ => inl Sample.backendResponse) (fun _ _ => None)
    (fun _ => inl Sample.switching) Hijacked (Some (ErrIO "broken pipe")).

(** A CONNECT request for [example.com:443]. *)
Definition connect : Request :=
  mkRequest "CONNECT" (mkURL EmptyString "example.com:443" EmptyString EmptyString)
    "HTTP/1.1" 1 1 ∅ Sample.emptyBody [] false "example.com:443"
    "10.0.0.1:5555" "example.com:443" (CtxAddr "127.0.0.1:80").

(** A GET request without any header. *)
Definition get : Request := Sample.request "GET" ∅ Sample.emptyBody.

(** A GET request with one end-to-end header and one hop-by-hop header. *)
Definition getAccept : Request :=
  Sample.request "GET"
    (<["Accept" := ["text/html"]]> (<["Keep-Alive" := ["timeout=5"]]> ∅))
    Sample.emptyBody.

(** A request in origin form: the URL has a path only, and the Host header
    names the port 443. *)
Definition originForm : Request :=
  mkRequest "GET" (mkURL EmptyString EmptyString "/index.html" "q=1")
    "HTTP/1.1" 1 1 ∅ Sample.emptyBody [] false "example.com:443"
    "10.0.0.1:5555" "/index.html?q=1" (CtxAddr "127.0.0.1:80").

End Failing.

(** The calls that take over, or try to take over, the client connection. *)
Definition hijacks (l : list event) : list event :=
  List.filter (fun e => match e with EvHijack => true | _ => false end) l.

(** The calls that wrap the backend connection in TLS. *)
Definition tlsWraps (l : list event) : list event :=
  List.filter (fun e => match e with EvTLSClient => true | _ => false end) l.

(** The statuses that the handler writes by itself. *)
Definition ownStatuses : list Z :=
  [StatusBadRequest; StatusBadGateway; StatusOK; StatusInternalServerError].

(** What a log of calls for the target [host] keeps to: at most one request
    goes to a backend, through the transport or over one dialled connection
    but never both; only [host] is dialled; the client connection is taken
    over at most once, and only after a successful dial of [host]; every
    status written is one of the handler's own or the status of a response
    of a backend. *)
Definition well_behaved (p : ReverseProxy) (env : World) (host : string)
    (l : list event) : Prop :=
  (length (transported l) + length (upgraded l) <= 1)%nat
  /\ (transported l = [] \/ dialled l = [])
  /\ (dialled l = [] \/ dialled l = [host])
  /\ (hijacks l = []
      \/ (hijacks l = [EvHijack] /\ dialled l = [host]
          /\ dialer p env "tcp" host = None))
  /\ Forall
       (fun sh =>
          In (fst sh) ownStatuses
          \/ exists r res,
               (roundTripper p env r = inl res \/ ConnTransport env r = inl res)
               /\ fst sh = StatusCode res)
       (responses l).

(** * Properties *)

(** ** Header collections *)

Section HeaderFacts.

Implicit Types (h : Header) (k name value : string).

Lemma HeaderSet_lookup_eq h name value :
  HeaderSet h name value !! CanonicalMIMEHeaderKey name = Some [value].
Proof. unfold HeaderSet. apply lookup_insert_eq. Qed.

Lemma HeaderSet_lookup_ne h name value k :
  CanonicalMIMEHeaderKey name ≠ k ->
  HeaderSet h name value !! k = h !! k.
Proof. intros Hne. unfold HeaderSet. by apply lookup_insert_ne. Qed.

Lemma delAll_lookup h names k :
  delAll h names !! k =
  if decide (k ∈ CanonicalMIMEHeaderKey <$> names) then None else h !! k.
Proof.
  unfold delAll. revert h.
  induction names as [|n names IH]; intros h; cbn [fold_left].
  - rewrite decide_False; [done | apply not_elem_of_nil].
  - rewrite IH, fmap_cons. unfold HeaderDel.
    destruct (decide (k = CanonicalMIMEHeaderKey n)) as [->|Hne].
    + rewrite lookup_delete_eq.
      rewrite (decide_True (P := _ ∈ _ :: _)) by (by left).
      by case_decide.
    + rewrite lookup_delete_ne by done.
      destruct (decide (k ∈ CanonicalMIMEHeaderKey <$> names)) as [Hin|Hnin].
      * rewrite (decide_True (P := _ ∈ _ :: _)) by (by right). done.
      * rewrite (decide_False (P := _ ∈ _ :: _)); [done|].
        intros [?|?]%elem_of_cons; done.
Qed.

Lemma delAll_lookup_in h names name :
  In name names -> delAll h names !! CanonicalMIMEHeaderKey name = None.
Proof.
  intros Hin. rewrite delAll_lookup, decide_True; [done|].
  apply list_elem_of_fmap. exists name. split; [done|].
  by apply list_elem_of_In.
Qed.

Lemma delAll_lookup_Some h names k vs :
  delAll h names !! k = Some vs -> h !! k = Some vs.
Proof. rewrite delAll_lookup. by case_decide. Qed.

Lemma delAll_lookup_None h names k :
  h !! k = None -> delAll h names !! k = None.
Proof. rewrite delAll_lookup. by case_decide. Qed.

(** Every hop-by-hop name of a collection is gone once it is stripped. *)
Lemma deleteHopFields_hop h name :
  hopName h name -> deleteHopFields h !! CanonicalMIMEHeaderKey name = None.
Proof.
  unfold deleteHopFields. intros [Hfix|Hlisted].
  - by apply delAll_lookup_in.
  - by apply delAll_lookup_None, delAll_lookup_in.
Qed.

(** Stripping adds nothing and changes no value. *)
Lemma deleteHopFields_Some h k vs :
  deleteHopFields h !! k = Some vs -> h !! k = Some vs.
Proof.
  unfold deleteHopFields. intros H.
  by apply delAll_lookup_Some in H; apply delAll_lookup_Some in H.
Qed.

Lemma deleteHopFields_None h k :
  h !! k = None -> deleteHopFields h !! k = None.
Proof.
  unfold deleteHopFields. intros H. by apply delAll_lookup_None, delAll_lookup_None.
Qed.

Lemma copyHeader_empty h : copyHeader ∅ h = h.
Proof. unfold copyHeader. apply (right_id_L ∅ (∪)). Qed.

Lemma copyHeader_lookup_None (to from : Header) k :
  to !! k = None -> from !! k = None -> copyHeader to from !! k = None.
Proof. intros Ht Hf. unfold copyHeader. by apply lookup_union_None. Qed.

End HeaderFacts.

(** ** Running the handler *)

Arguments deleteHopFields : simpl never.
Arguments copyHeader : simpl never.
Arguments proxyHeaders : simpl never.
Arguments outbound : simpl never.
Arguments outboundURL : simpl never.
Arguments guessScheme : simpl never.
Arguments DumpRequest : simpl never.
Arguments connectionUpgrade : simpl never.
Arguments maxForwards : simpl never.
Arguments HeaderSet : simpl never.
Arguments HeaderGet : simpl never.
Arguments HeaderHas : simpl never.
Arguments HeaderValues : simpl never.
Arguments Itoa : simpl never.
Arguments wrap64 : simpl never.
Arguments upgradeResponseHeader : simpl never.
Arguments dialer : simpl never.
Arguments roundTripper : simpl never.
Arguments String.eqb : simpl never.

Section Projections.

Variables (req : Request) (h : Header).

Lemma outbound_URL : reqURL (outbound req) = outboundURL req.
Proof. reflexivity. Qed.

Lemma outbound_Method : Method (outbound req) = Method req.
Proof. reflexivity. Qed.

Lemma outbound_Header :
  reqHeader (outbound req) = deleteHopFields (copyHeader ∅ (reqHeader req)).
Proof. reflexivity. Qed.

Lemma outbound_Proto :
  Proto (outbound req) = "HTTP/1.1"
  /\ ProtoMajor (outbound req) = 1 /\ ProtoMinor (outbound req) = 1.
Proof. done. Qed.

Lemma outbound_Close : Close (outbound req) = false.
Proof. reflexivity. Qed.

Lemma withHeader_URL : reqURL (withHeader req h) = reqURL req.
Proof. reflexivity. Qed.

Lemma withHeader_Method : Method (withHeader req h) = Method req.
Proof. reflexivity. Qed.

Lemma withHeader_Header : reqHeader (withHeader req h) = h.
Proof. reflexivity. Qed.

End Projections.

Ltac unfold_effects :=
  unfold mbind, mret, M_bind, M_ret, bind, ret, defer, call, panic,
    WriteHeader, updateHeader.

(** Splits [l = pre ++ e :: post], for a list [l] that is written out, into
    the positions that [e] can take. *)
Ltac split_at H pre :=
  repeat (destruct pre as [|? pre]; simpl in H;
          [ try discriminate H
          | first
              [ discriminate H
              | let Hhead := fresh "Hhead" in
                let Htail := fresh "Htail" in
                injection H as Hhead Htail; try clear H; rename Htail into H;
                try subst ] ]).

Lemma outboundURL_host req :
  URLHost (outboundURL req) =
  if (String.length (URLHost (reqURL req)) =? 0)%nat then Host req
  else URLHost (reqURL req).
Proof.
  unfold outboundURL.
  destruct (String.length (URLHost (reqURL req)) =? 0)%nat; simpl;
    match goal with |- context [if ?c then _ else _] => destruct c end; done.
Qed.

Lemma length_zero_empty (s : string) :
  (String.length s =? 0)%nat = true <-> s = EmptyString.
Proof. destruct s; simpl; split; congruence. Qed.

Lemma outboundURL_host_empty req :
  URLHost (outboundURL req) = EmptyString <->
  URLHost (reqURL req) = EmptyString /\ Host req = EmptyString.
Proof.
  rewrite outboundURL_host.
  destruct (String.length (URLHost (reqURL req)) =? 0)%nat eqn:E.
  - apply length_zero_empty in E. rewrite E. tauto.
  - split; [intros H | intros [H _]]; rewrite H in E; discriminate E.
Qed.

(** C3: when the outbound URL host is still empty after it was defaulted
    to the inbound Host header, the handler's only call is
    [WriteHeader(400)]: nothing is dialled and no transport is invoked. *)
Theorem ServeHTTP_no_host p env req s :
  URLHost (outboundURL req) = EmptyString ->
  ServeHTTP p env req s =
    Returned tt (mkState (wHeader s)
                   (calls s ++ [EvWriteHeader StatusBadRequest (wHeader s)]))
  /\ run (ServeHTTP p env req) = [EvWriteHeader StatusBadRequest ∅]
  /\ dialled (run (ServeHTTP p env req)) = []
  /\ transported (run (ServeHTTP p env req)) = []
  /\ upgraded (run (ServeHTTP p env req)) = [].
Proof.
  intros Hhost.
  assert (Hs : forall s', ServeHTTP p env req s' =
    Returned tt (mkState (wHeader s')
                   (calls s' ++ [EvWriteHeader StatusBadRequest (wHeader s')]))).
  { intros s'. unfold ServeHTTP. rewrite outbound_URL, Hhost. reflexivity. }
  split; [apply Hs|]. unfold run. rewrite Hs. simpl. done.
Qed.


(** C9, as the code has it: when the request cannot be serialized,
    [serveTRACE] panics with the error of the dump; it writes no status, no
    header and no body, and no 500 response is produced. *)
Theorem serveTRACE_dump_failure req s err :
  DumpRequest req = inr err ->
  serveTRACE req s = Panicked (Some err) s.
Proof. intros Hdump. unfold serveTRACE. rewrite Hdump. reflexivity. Qed.

(** C7: when the backend is reached and answers with a status other than
    101, [serveUpgrade] relays the status, the stripped headers and the body
    to the client, never calls [Hijack] and starts no relay; the backend
    connection is closed by the last call. *)
Theorem serveUpgrade_not_switched p env req s res :
  dialer p env "tcp" (URLHost (reqURL req)) = None ->
  ConnTransport env req = inl res ->
  StatusCode res <> StatusSwitchingProtocols ->
  serveUpgrade p env req s =
    Returned tt
      (mkState (copyHeader (wHeader s) (upgradeResponseHeader res))
         (calls s
          ++ [EvDial "tcp" (URLHost (reqURL req))]
          ++ (if String.eqb (URLScheme (reqURL req)) "https" then [EvTLSClient] else [])
          ++ [EvConnRoundTrip req;
              EvWriteHeader (StatusCode res)
                (copyHeader (wHeader s) (upgradeResponseHeader res));
              EvCopyBody (resBody res);
              EvCloseBody;
              EvCloseBackend])).
Proof.
  intros Hdial Hres Hstatus.
  apply Z.eqb_neq in Hstatus.
  unfold serveUpgrade. unfold_effects. simpl.
  rewrite Hdial.
  destruct (String.eqb (URLScheme (reqURL req)) "https"); simpl;
    rewrite Hres; simpl; rewrite Hstatus; simpl;
    rewrite <- !app_assoc; reflexivity.
Qed.

(** C8: in every run of [serveUpgrade], a call of [Hijack] comes after the
    exchange with the backend and after the calls that write the response to
    the client: [WriteHeader] with the status and the headers, the copy of
    the body, and the close of the body, in this order. *)
Theorem serveUpgrade_response_before_hijack p env req wh pre post :
  calls (resultState (serveUpgrade p env req (mkState wh []))) =
    pre ++ EvHijack :: post ->
  exists res,
    ConnTransport env req = inl res
    /\ StatusCode res = StatusSwitchingProtocols
    /\ pre =
       [EvDial "tcp" (URLHost (reqURL req))]
       ++ (if String.eqb (URLScheme (reqURL req)) "https" then [EvTLSClient] else [])
       ++ [EvConnRoundTrip req;
           EvWriteHeader (StatusCode res) (copyHeader wh (upgradeResponseHeader res));
           EvCopyBody (resBody res);
           EvCloseBody].
Proof.
  unfold serveUpgrade. unfold_effects. simpl.
  destruct (dialer p env "tcp" (URLHost (reqURL req))); simpl;
    [intros H; split_at H pre|].
  destruct (String.eqb (URLScheme (reqURL req)) "https"); simpl;
    (destruct (ConnTransport env req) as [res|] eqn:Hres; simpl;
      [|intros H; split_at H pre]);
    (destruct (StatusCode res =? StatusSwitchingProtocols) eqn:Hst; simpl;
      [|intros H; split_at H pre]);
    apply Z.eqb_eq in Hst;
    (destruct (Hijack env); simpl; [| |destruct (Flush env); simpl]);
    intros H; split_at H pre; exists res; done.
Qed.

(** ** The proxy headers *)

Arguments translateXForwarded : simpl never.
Arguments addForwarded : simpl never.
Arguments addVia : simpl never.
Arguments legacyHop : simpl never.
Arguments forwardedHop : simpl never.
Arguments viaEntry : simpl never.

Section ProxyHeaderFacts.

Implicit Types (h : Header) (k : string).

Lemma translateXForwarded_lookup_ne h k :
  k ≠ "Forwarded" -> translateXForwarded h !! k = h !! k.
Proof.
  intros Hne. unfold translateXForwarded.
  destruct (HeaderHas h "Forwarded"); [done|].
  destruct (Str.is_empty (legacyHop h)); [done|].
  by apply HeaderSet_lookup_ne.
Qed.

Lemma addForwarded_lookup_ne h proto forAddr byAddr k :
  k ≠ "Forwarded" -> addForwarded h proto forAddr byAddr !! k = h !! k.
Proof. intros Hne. unfold addForwarded. by apply HeaderSet_lookup_ne. Qed.

Lemma addVia_lookup_ne h version localAddr k :
  k ≠ "Via" -> addVia h version localAddr !! k = h !! k.
Proof. intros Hne. unfold addVia. by apply HeaderSet_lookup_ne. Qed.

(** The proxy headers leave every other header as it is. *)
Lemma proxyHeaders_lookup_ne req outreq k :
  k ≠ "Forwarded" -> k ≠ "Via" ->
  proxyHeaders req outreq !! k = reqHeader outreq !! k.
Proof.
  intros HF HV. unfold proxyHeaders.
  rewrite addVia_lookup_ne, addForwarded_lookup_ne by done.
  destruct (HeaderHas (reqHeader outreq) "Forwarded"); [done|].
  by apply translateXForwarded_lookup_ne.
Qed.

Lemma HeaderValues_lookup h k vs :
  h !! k = Some vs -> HeaderValues h k = vs.
Proof. unfold HeaderValues. by intros ->. Qed.

Lemma HeaderValues_lookup_None h k :
  h !! k = None -> HeaderValues h k = [].
Proof. unfold HeaderValues. by intros ->. Qed.

Lemma HeaderHas_false h k : HeaderHas h k = false <-> h !! k = None.
Proof. unfold HeaderHas. destruct (h !! k); split; congruence. Qed.

Lemma proxyHeaders_Via req outreq :
  proxyHeaders req outreq !! "Via" =
  Some [Str.join ", "
          (HeaderValues (reqHeader outreq) "Via"
           ++ [viaEntry (protoVersion req) (requestLocalAddr req)])].
Proof.
  unfold proxyHeaders, addVia.
  change "Via" with (CanonicalMIMEHeaderKey "Via") at 1.
  rewrite HeaderSet_lookup_eq. do 3 f_equal.
  unfold HeaderValues. rewrite addForwarded_lookup_ne by done.
  destruct (HeaderHas (reqHeader outreq) "Forwarded"); [done|].
  by rewrite translateXForwarded_lookup_ne.
Qed.

End ProxyHeaderFacts.

(** The Forwarded header that the proxy headers end with. *)
Lemma proxyHeaders_lookup_Forwarded req :
  proxyHeaders req (outbound req) !! "Forwarded" =
  Some [Str.join ", "
          ((if HeaderHas (reqHeader (outbound req)) "Forwarded"
            then HeaderValues (reqHeader (outbound req)) "Forwarded"
            else if Str.is_empty (legacyHop (reqHeader (outbound req))) then []
                 else [legacyHop (reqHeader (outbound req))])
           ++ [forwardedHop (URLScheme (reqURL (outbound req)))
                 (RemoteAddr req) (requestLocalAddr req)])].
Proof.
  generalize (outbound req). intros outreq.
  unfold proxyHeaders. rewrite addVia_lookup_ne by done.
  unfold addForwarded.
  change "Forwarded" with (CanonicalMIMEHeaderKey "Forwarded") at 1.
  rewrite HeaderSet_lookup_eq. do 4 f_equal.
  destruct (HeaderHas (reqHeader outreq) "Forwarded") eqn:Hhas; [done|].
  unfold translateXForwarded. rewrite Hhas.
  destruct (Str.is_empty (legacyHop (reqHeader outreq))).
  - apply HeaderValues_lookup_None. by apply HeaderHas_false.
  - apply HeaderValues_lookup.
    change "Forwarded" with (CanonicalMIMEHeaderKey "Forwarded") at 2.
    apply HeaderSet_lookup_eq.
Qed.

(** ** The Max-Forwards guard *)

Arguments proxied : simpl never.

Section Guard.

Implicit Types (h : Header) (req : Request).

Lemma maxForwards_ext h h' :
  h !! "Max-Forwards" = h' !! "Max-Forwards" -> maxForwards h = maxForwards h'.
Proof.
  intros Heq. unfold maxForwards, HeaderHas, HeaderGet.
  change (CanonicalMIMEHeaderKey "Max-Forwards") with "Max-Forwards".
  by rewrite Heq.
Qed.

Lemma maxForwards_absent h :
  h !! "Max-Forwards" = None -> maxForwards h = (0, Some ErrMissingHeader).
Proof. intros Hnone. unfold maxForwards, HeaderHas. by rewrite Hnone. Qed.

(** The guard reads the header of the inbound request, unless the
    stripping removed it. *)
Lemma proxied_MaxForwards req :
  reqHeader (proxied req) !! "Max-Forwards" = None
  \/ reqHeader (proxied req) !! "Max-Forwards" = reqHeader req !! "Max-Forwards".
Proof.
  unfold proxied. rewrite withHeader_Header, proxyHeaders_lookup_ne by done.
  rewrite outbound_Header, copyHeader_empty.
  destruct (deleteHopFields (reqHeader req) !! "Max-Forwards") as [vs|] eqn:E;
    [right | by left].
  apply deleteHopFields_Some in E. by rewrite E.
Qed.

Lemma guard_loops req :
  is_Some (snd (maxForwards (reqHeader req)))
  \/ fst (maxForwards (reqHeader req)) = 1 ->
  (let '(max, err) := maxForwards (reqHeader (proxied req)) in
   (wrap64 (max - 1) =? 0) || bool_decide (is_Some err)) = true.
Proof.
  intros Hreq.
  destruct (proxied_MaxForwards req) as [Hnone|Hsame].
  - by rewrite (maxForwards_absent _ Hnone).
  - rewrite (maxForwards_ext _ _ Hsame).
    destruct (maxForwards (reqHeader req)) as [max err]. simpl in Hreq.
    destruct Hreq as [Herr| ->].
    + rewrite (bool_decide_eq_true_2 _ Herr). apply orb_true_r.
    + reflexivity.
Qed.

Lemma host_test req :
  URLHost (outboundURL req) <> EmptyString ->
  (String.length (URLHost (outboundURL req)) =? 0)%nat = false.
Proof.
  intros Hhost. destruct (URLHost (outboundURL req)); [done | reflexivity].
Qed.

End Guard.

(** The local answer to TRACE and OPTIONS, from any state of the response
    writer. *)
Lemma ServeHTTP_answers_locally p env req s :
  URLHost (outboundURL req) <> EmptyString ->
  is_Some (snd (maxForwards (reqHeader req)))
  \/ fst (maxForwards (reqHeader req)) = 1 ->
  (Method req = MethodOptions ->
   ServeHTTP p env req s =
     Returned tt (mkState (wHeader s)
                    (calls s ++ [EvWriteHeader StatusOK (wHeader s)])))
  /\ (Method req = MethodTrace ->
      forall content, DumpRequest (proxied req) = inl content ->
      ServeHTTP p env req s =
        Returned tt
          (mkState (HeaderSet (wHeader s) "Content-Type" "message/http")
             (calls s
              ++ [EvWriteHeader StatusOK
                    (HeaderSet (wHeader s) "Content-Type" "message/http");
                  EvWrite content]))).
Proof.
  intros Hhost Hguard.
  pose proof (guard_loops req Hguard) as Hloop.
  split.
  - intros Hm. unfold ServeHTTP.
    rewrite outbound_URL, (host_test _ Hhost).
    rewrite withHeader_Method, outbound_Method, Hm.
    change (String.eqb MethodOptions MethodConnect) with false.
    change (String.eqb MethodOptions MethodTrace) with false.
    change (String.eqb MethodOptions MethodOptions) with true.
    cbv beta iota zeta. simpl orb. cbv iota.
    fold (proxied req).
    destruct (maxForwards (reqHeader (proxied req))) as [max err].
    rewrite Hloop. reflexivity.
  - intros Hm content Hdump. unfold ServeHTTP.
    rewrite outbound_URL, (host_test _ Hhost).
    rewrite withHeader_Method, outbound_Method, Hm.
    change (String.eqb MethodTrace MethodConnect) with false.
    change (String.eqb MethodTrace MethodTrace) with true.
    cbv beta iota zeta. simpl orb. cbv iota.
    fold (proxied req).
    destruct (maxForwards (reqHeader (proxied req))) as [max err].
    rewrite Hloop. unfold serveTRACE. rewrite Hdump.
    unfold_effects. simpl. rewrite <- app_assoc. reflexivity.
Qed.

(** ** The routes of the handler *)

Lemma ServeHTTP_route p env req :
  ServeHTTP p env req = WriteHeader StatusBadRequest
  \/ ServeHTTP p env req = serveCONNECT p env (proxied req)
  \/ ServeHTTP p env req = serveTRACE (proxied req)
  \/ ServeHTTP p env req = serveOPTIONS (proxied req)
  \/ ServeHTTP p env req = forwardRequest p env req (proxied req)
  \/ exists v,
       ServeHTTP p env req =
       forwardRequest p env req
         (withHeader (proxied req)
            (HeaderSet (reqHeader (proxied req)) "Max-Forward" v)).
Proof.
  unfold ServeHTTP. fold (proxied req).
  destruct (String.length (URLHost (reqURL (outbound req))) =? 0)%nat; [tauto|].
  cbv zeta.
  destruct (String.eqb (Method (proxied req)) MethodConnect); [tauto|].
  destruct (String.eqb (Method (proxied req)) MethodTrace || String.eqb (Method (proxied req)) MethodOptions); [|tauto].
  destruct (maxForwards (reqHeader (proxied req))) as [max err].
  destruct ((wrap64 (max - 1) =? 0) || bool_decide (is_Some err)).
  - destruct (String.eqb (Method (proxied req)) MethodTrace); tauto.
  - do 5 right. eauto.
Qed.

(** ** Responses without hop-by-hop headers *)

Section HopFree.

Implicit Types (h : Header).

Lemma hopFree_weaken h : hopFree h -> hopFreeButUpgrade h.
Proof. intros H name Hin _ _. by apply H. Qed.

Lemma hopFree_empty : hopFree ∅.
Proof. intros name _. apply lookup_empty. Qed.

Lemma hopFree_deleteHopFields h : hopFree (deleteHopFields h).
Proof. intros name Hin. apply deleteHopFields_hop. by left. Qed.

Lemma hopFree_copyHeader (to from : Header) :
  hopFree to -> hopFree from -> hopFree (copyHeader to from).
Proof. intros Ht Hf name Hin. apply copyHeader_lookup_None; auto. Qed.

Lemma hopFreeButUpgrade_copyHeader (to from : Header) :
  hopFree to -> hopFreeButUpgrade from -> hopFreeButUpgrade (copyHeader to from).
Proof. intros Ht Hf name Hin HC HU. apply copyHeader_lookup_None; auto. Qed.

Lemma hopFree_ContentType h :
  hopFree h -> hopFree (HeaderSet h "Content-Type" "message/http").
Proof.
  intros Hh name Hin. rewrite HeaderSet_lookup_ne; [by apply Hh|].
  unfold hopFields in Hin. simpl in Hin.
  repeat (destruct Hin as [<-|Hin]; [by vm_compute|]). destruct Hin.
Qed.

Lemma hopFreeButUpgrade_response res :
  hopFreeButUpgrade (upgradeResponseHeader res).
Proof.
  intros name Hin HC HU. unfold upgradeResponseHeader.
  destruct (length (HeaderValues (resHeader res) "Upgrade") =? 0)%nat.
  - by apply hopFree_deleteHopFields.
  - rewrite !lookup_insert_ne by done. by apply hopFree_deleteHopFields.
Qed.

End HopFree.

(** ** What each route calls *)

Ltac in_cases :=
  repeat match goal with
    | H : In _ _ |- _ => progress simpl in H
    | H : False |- _ => destruct H
    | H : In _ [] |- _ => destruct H
    | H : In _ (_ :: _) |- _ => destruct H as [H|H]
    | H : _ \/ _ |- _ => destruct H as [H|H]
    | H : (_, _) = (_, _) |- _ => injection H as <- <-
    end.

Lemma local_WriteHeader status : local_route (WriteHeader status).
Proof.
  unfold local_route, run. unfold_effects. simpl.
  repeat split; try apply hopFree_empty.
  intros st h Hin. in_cases. apply hopFree_empty.
Qed.

Lemma local_OPTIONS r : local_route (serveOPTIONS r).
Proof. apply local_WriteHeader. Qed.

Lemma local_TRACE r : local_route (serveTRACE r).
Proof.
  unfold local_route, run, serveTRACE.
  destruct (DumpRequest r); unfold_effects; simpl.
  - repeat split; try apply hopFree_ContentType, hopFree_empty.
    intros st h Hin. in_cases. apply hopFree_ContentType, hopFree_empty.
  - repeat split; try apply hopFree_empty. intros st h [].
Qed.

Lemma local_CONNECT p env r : local_route (serveCONNECT p env r).
Proof.
  unfold local_route, run, serveCONNECT. unfold_effects. simpl.
  destruct (dialer p env "tcp" (URLHost (reqURL r))); simpl;
    [|destruct (Hijack env); simpl];
    (repeat split; try apply hopFree_empty);
    intros st h Hin; in_cases; apply hopFree_empty.
Qed.

Ltac split_forwards :=
  unfold forwards; split; [|split; [|split; [|split; [|split]]]].

Lemma local_forward_route p env outreq m :
  local_route m -> forward_route p env outreq m.
Proof.
  intros (HT & HU & HR & HF). unfold forward_route.
  split_forwards; rewrite ?HT, ?HU; try (intros; in_cases; fail).
  - intros st h Hin. split; [apply hopFree_weaken|]; eauto.
  - split; [by apply hopFree_weaken | done].
Qed.

Lemma upgradeResponseHeader_listed res name :
  hopName (resHeader res) name ->
  CanonicalMIMEHeaderKey name <> "Connection" ->
  CanonicalMIMEHeaderKey name <> "Upgrade" ->
  upgradeResponseHeader res !! CanonicalMIMEHeaderKey name = None.
Proof.
  intros Hhop HC HU. unfold upgradeResponseHeader.
  destruct (length (HeaderValues (resHeader res) "Upgrade") =? 0)%nat.
  - by apply deleteHopFields_hop.
  - rewrite !lookup_insert_ne by done. by apply deleteHopFields_hop.
Qed.

(** Calls that reach no backend and give the client no header. *)
Lemma forwards_nothing p env outreq l :
  transported l = [] -> upgraded l = [] ->
  (forall st h, In (st, h) (responses l) -> h = ∅) ->
  forwards p env outreq l ∅.
Proof.
  intros HT HU HR.
  split_forwards; rewrite ?HT, ?HU; try (intros; in_cases; fail).
  - intros st h Hin. rewrite (HR _ _ Hin).
    split; [apply hopFree_weaken|intros _]; apply hopFree_empty.
  - split; [apply hopFree_weaken|intros _]; apply hopFree_empty.
Qed.

(** Calls of an exchange over a dedicated connection. *)
Lemma forwards_upgrade p env outreq upgrade l final :
  let r := withHeader outreq
             (HeaderSet (HeaderSet (reqHeader outreq) "Connection" "Upgrade")
                "Upgrade" upgrade) in
  let relayed h :=
    h = ∅ \/ exists res, ConnTransport env r = inl res
                         /\ h = copyHeader ∅ (upgradeResponseHeader res) in
  transported l = [] -> upgraded l = [r] ->
  (forall st h, In (st, h) (responses l) -> relayed h) ->
  relayed final ->
  forwards p env outreq l final.
Proof.
  intros r relayed HT HU HR HF.
  assert (Hfree : forall h, relayed h -> hopFreeButUpgrade h).
  { intros h [->|(res & _ & ->)]; [apply hopFree_weaken, hopFree_empty|].
    rewrite copyHeader_empty. apply hopFreeButUpgrade_response. }
  split_forwards; rewrite ?HT, ?HU; try (intros; in_cases; fail).
  - intros r0 Hin. in_cases. subst r0. by exists upgrade.
  - intros st h Hin. split; [eauto | discriminate].
  - split; [eauto | discriminate].
  - intros r0 res0 st h0 name Hin Hres0 Hin0 Hhop HC HU'.
    in_cases. subst r0.
    destruct (HR _ _ Hin0) as [->|(res & Hres & ->)]; [apply lookup_empty|].
    rewrite Hres in Hres0. injection Hres0 as <-.
    rewrite copyHeader_empty. by apply upgradeResponseHeader_listed.
Qed.

Arguments forwards : simpl never.

Lemma serveUpgrade_forward_route p env outreq upgrade :
  forward_route p env outreq
    (serveUpgrade p env
       (withHeader outreq
          (HeaderSet (HeaderSet (reqHeader outreq) "Connection" "Upgrade")
             "Upgrade" upgrade))).
Proof.
  unfold forward_route, run, serveUpgrade. unfold_effects. simpl.
  destruct (dialer p env "tcp" (URLHost (reqURL outreq))); simpl.
  { apply forwards_nothing; try done. intros st h Hin. by in_cases. }
  destruct (String.eqb (URLScheme (reqURL outreq)) "https"); simpl;
    (destruct (ConnTransport env _) as [res|] eqn:Hres; simpl;
      [|apply (forwards_upgrade p env outreq upgrade); try done;
        [intros st h Hin; in_cases; by left | by left]]);
    (destruct (StatusCode res =? StatusSwitchingProtocols); simpl;
      [destruct (Hijack env); simpl; [| |destruct (Flush env); simpl]|]);
    (apply (forwards_upgrade p env outreq upgrade); try done;
      [intros st h Hin; in_cases; right; by exists res | right; by exists res]).
Qed.

(** Calls of an exchange through the transport. *)
Lemma forwards_transport p env outreq l final :
  let relayed h :=
    h = ∅ \/ exists res, roundTripper p env outreq = inl res
                         /\ h = copyHeader ∅ (deleteHopFields (resHeader res)) in
  transported l = [outreq] -> upgraded l = [] ->
  (forall st h, In (st, h) (responses l) -> relayed h) ->
  hopFree final ->
  forwards p env outreq l final.
Proof.
  intros relayed HT HU HR HF.
  assert (Hfree : forall h, relayed h -> hopFree h).
  { intros h [->|(res & _ & ->)]; [apply hopFree_empty|].
    rewrite copyHeader_empty. apply hopFree_deleteHopFields. }
  split_forwards; rewrite ?HT, ?HU; try (intros; in_cases; fail).
  - intros r0 Hin. by in_cases.
  - intros st h Hin. split; [apply hopFree_weaken|intros _]; eauto.
  - split; [by apply hopFree_weaken | done].
  - intros r0 res0 st h0 name Hin Hres0 Hin0 Hhop.
    in_cases. subst r0.
    destruct (HR _ _ Hin0) as [->|(res & Hres & ->)]; [apply lookup_empty|].
    rewrite Hres in Hres0. injection Hres0 as <-.
    rewrite copyHeader_empty. by apply deleteHopFields_hop.
Qed.

Lemma forwardRequest_forward_route p env req outreq :
  forward_route p env outreq (forwardRequest p env req outreq).
Proof.
  unfold forwardRequest.
  destruct (negb (String.length (connectionUpgrade (reqHeader req)) =? 0)%nat).
  { apply serveUpgrade_forward_route. }
  unfold forward_route, run. unfold_effects. simpl.
  destruct (roundTripper p env outreq) as [res|] eqn:Hres; simpl.
  - apply forwards_transport; try done.
    + intros st h Hin. in_cases. right. by exists res.
    + apply hopFree_copyHeader; [|apply hopFree_deleteHopFields].
      rewrite copyHeader_empty. apply hopFree_deleteHopFields.
  - apply forwards_transport; try done.
    intros st h Hin. in_cases. by left.
Qed.

Lemma ServeHTTP_forward_route p env req :
  exists outreq,
    (outreq = proxied req
     \/ exists v, outreq = withHeader (proxied req)
                             (HeaderSet (reqHeader (proxied req)) "Max-Forward" v))
    /\ forward_route p env outreq (ServeHTTP p env req).
Proof.
  destruct (ServeHTTP_route p env req)
    as [-> | [-> | [-> | [-> | [-> | [v ->]]]]]].
  - exists (proxied req). split; [by left|].
    apply local_forward_route, local_WriteHeader.
  - exists (proxied req). split; [by left|].
    apply local_forward_route, local_CONNECT.
  - exists (proxied req). split; [by left|].
    apply local_forward_route, local_TRACE.
  - exists (proxied req). split; [by left|].
    apply local_forward_route, local_OPTIONS.
  - exists (proxied req). split; [by left|].
    apply forwardRequest_forward_route.
  - eexists. split; [right; by exists v|].
    apply forwardRequest_forward_route.
Qed.

(** The hop-by-hop names of the inbound request are not in the outbound
    request, but for the headers that the proxy writes after the stripping. *)
Lemma proxied_hop req name :
  hopName (reqHeader req) name ->
  CanonicalMIMEHeaderKey name <> "Forwarded" ->
  CanonicalMIMEHeaderKey name <> "Via" ->
  reqHeader (proxied req) !! CanonicalMIMEHeaderKey name = None.
Proof.
  intros Hhop HF HV. unfold proxied.
  rewrite withHeader_Header, proxyHeaders_lookup_ne by done.
  rewrite outbound_Header, copyHeader_empty. by apply deleteHopFields_hop.
Qed.

(** C6, as the code has it.  A header name that is hop-by-hop for the
    inbound request (the fixed set, or a name listed in its Connection
    header) is absent from the request given to the transport unless the
    proxy writes that header after the stripping (Forwarded, Via and the
    header of the Max-Forwards guard); on the upgrade path Connection and
    Upgrade are added again.  The headers given to the client, with the
    status and after the trailers, have no header of the fixed set, but for
    Connection and Upgrade on the upgrade path, and no header that the
    backend's response lists in its own Connection header. *)
Theorem hop_by_hop_stripped p env req :
  (forall r name,
     In r (transported (run (ServeHTTP p env req))) ->
     hopName (reqHeader req) name ->
     CanonicalMIMEHeaderKey name ∉ ["Forwarded"; "Via"; "Max-Forward"] ->
     reqHeader r !! CanonicalMIMEHeaderKey name = None)
  /\ (forall r name,
        In r (upgraded (run (ServeHTTP p env req))) ->
        hopName (reqHeader req) name ->
        CanonicalMIMEHeaderKey name
          ∉ ["Forwarded"; "Via"; "Max-Forward"; "Connection"; "Upgrade"] ->
        reqHeader r !! CanonicalMIMEHeaderKey name = None)
  /\ (forall st h,
        In (st, h) (responses (run (ServeHTTP p env req))) ->
        hopFreeButUpgrade h
        /\ (upgraded (run (ServeHTTP p env req)) = [] -> hopFree h))
  /\ (hopFreeButUpgrade (wHeader (resultState (ServeHTTP p env req fresh)))
      /\ (upgraded (run (ServeHTTP p env req)) = [] ->
          hopFree (wHeader (resultState (ServeHTTP p env req fresh)))))
  /\ (forall r res st h name,
        In r (transported (run (ServeHTTP p env req))) ->
        roundTripper p env r = inl res ->
        In (st, h) (responses (run (ServeHTTP p env req))) ->
        hopName (resHeader res) name ->
        h !! CanonicalMIMEHeaderKey name = None)
  /\ (forall r res st h name,
        In r (upgraded (run (ServeHTTP p env req))) ->
        ConnTransport env r = inl res ->
        In (st, h) (responses (run (ServeHTTP p env req))) ->
        hopName (resHeader res) name ->
        CanonicalMIMEHeaderKey name <> "Connection" ->
        CanonicalMIMEHeaderKey name <> "Upgrade" ->
        h !! CanonicalMIMEHeaderKey name = None).
Proof.
  destruct (ServeHTTP_forward_route p env req)
    as (outreq & Hout & HT & HU & HR & HF & HDT & HDU).
  assert (Hlookup : forall name,
    hopName (reqHeader req) name ->
    CanonicalMIMEHeaderKey name ∉ ["Forwarded"; "Via"; "Max-Forward"] ->
    reqHeader outreq !! CanonicalMIMEHeaderKey name = None).
  { intros name Hhop Hnot.
    apply not_elem_of_cons in Hnot as [HnF Hnot].
    apply not_elem_of_cons in Hnot as [HnV Hnot].
    apply not_elem_of_cons in Hnot as [HnM _].
    destruct Hout as [-> | [v ->]]; [by apply proxied_hop|].
    rewrite withHeader_Header, HeaderSet_lookup_ne by done.
    by apply proxied_hop. }
  split; [|split; [|split; [|split; [|split]]]]; try done.
  - intros r name Hin Hhop Hnot. rewrite (HT _ Hin). by apply Hlookup.
  - intros r name Hin Hhop Hnot.
    destruct (HU _ Hin) as [upgrade ->].
    apply not_elem_of_cons in Hnot as [HnF Hnot].
    apply not_elem_of_cons in Hnot as [HnV Hnot].
    apply not_elem_of_cons in Hnot as [HnM Hnot].
    apply not_elem_of_cons in Hnot as [HnC Hnot].
    apply not_elem_of_cons in Hnot as [HnU _].
    rewrite withHeader_Header, !HeaderSet_lookup_ne by done.
    apply Hlookup; [done|].
    intros Hel. repeat (apply elem_of_cons in Hel as [?|Hel]; [done|]).
    by apply elem_of_nil in Hel.
Qed.

(** ** The dump of a request *)

Section Dump.

Implicit Types (h : Header) (kv : string * list string).

Lemma In_insertField x kv l :
  In x (insertField kv l) <-> x = kv \/ In x l.
Proof.
  induction l as [|y l IH]; simpl; [intuition|].
  destruct (String.leb (fst kv) (fst y)); simpl; [intuition|].
  rewrite IH. intuition.
Qed.

Lemma In_fold_insertField x (l : list (string * list string)) :
  In x (fold_right insertField [] l) <-> In x l.
Proof.
  induction l as [|y l IH]; simpl; [done|].
  rewrite In_insertField, IH. intuition.
Qed.

Lemma In_sortedFields h k vs :
  In (k, vs) (sortedFields h) <-> h !! k = Some vs.
Proof.
  unfold sortedFields.
  by rewrite In_fold_insertField, <- list_elem_of_In, elem_of_map_to_list.
Qed.

(** The lines of a header are those of its fields, but for the excluded
    names. *)
Lemma In_headerLines h exclude line :
  In line (headerLines h exclude) <->
  exists k vs v,
    h !! k = Some vs
    /\ List.existsb (String.eqb k) exclude = false
    /\ In v vs
    /\ line = k +:+ ": " +:+ Str.trim (headerNewlineToSpace v) +:+ crlf.
Proof.
  unfold headerLines. rewrite in_concat. split.
  - intros (lines & Hlines & Hline).
    apply in_map_iff in Hlines as ([k vs] & <- & Hkv).
    apply filter_In in Hkv as [Hkv Hex]. apply In_sortedFields in Hkv.
    unfold fieldLines in Hline. simpl in Hline, Hex.
    apply in_map_iff in Hline as (v & <- & Hv).
    exists k, vs, v. by rewrite <- (negb_involutive (existsb _ _)), Hex.
  - intros (k & vs & v & Hk & Hex & Hv & ->).
    exists (fieldLines (k, vs)). split.
    + apply in_map. apply filter_In. split; [by apply In_sortedFields|].
      simpl. by rewrite Hex.
    + unfold fieldLines. simpl. apply in_map_iff. by exists v.
Qed.

End Dump.

(** C10: the body of the local answer to TRACE is the dump of the outbound
    request, the one with the stripped headers and the proxy headers.  Its
    request line has the version 1.1 whatever the version of the inbound
    request; the lines taken from the header map include a Forwarded and a
    Via line, and each of them belongs to a field of the outbound header
    map, none of which has a hop-by-hop name of the inbound request (but
    for Forwarded and Via, written after the stripping). *)
Theorem TRACE_loopback_dump p env req content :
  Method req = MethodTrace ->
  URLHost (outboundURL req) <> EmptyString ->
  is_Some (snd (maxForwards (reqHeader req)))
  \/ fst (maxForwards (reqHeader req)) = 1 ->
  DumpRequest (proxied req) = inl content ->
  run (ServeHTTP p env req) =
    [EvWriteHeader StatusOK (HeaderSet ∅ "Content-Type" "message/http");
     EvWrite content]
  /\ content =
     dumpRequestLine (proxied req)
     +:+ Str.join EmptyString
           (dumpHostLines (proxied req) ++ dumpTransferLines (proxied req)
            ++ headerLines (reqHeader (proxied req)) reqWriteExcludeHeader)
     +:+ crlf
     +:+ dumpBody
           (match TransferEncoding req with
            | te :: _ => String.eqb te "chunked"
            | [] => false
            end)
           (bodyData (reqBody req))
  /\ dumpRequestLine (proxied req) =
     "TRACE "
     +:+ (if Str.is_empty (RequestURI req) then URLRequestURI (outboundURL req)
          else RequestURI req)
     +:+ " HTTP/1.1" +:+ crlf
  /\ (exists forwarded,
        reqHeader (proxied req) !! "Forwarded" = Some [forwarded]
        /\ In ("Forwarded: " +:+ Str.trim (headerNewlineToSpace forwarded) +:+ crlf)
             (headerLines (reqHeader (proxied req)) reqWriteExcludeHeader))
  /\ (exists via,
        reqHeader (proxied req) !! "Via" = Some [via]
        /\ In ("Via: " +:+ Str.trim (headerNewlineToSpace via) +:+ crlf)
             (headerLines (reqHeader (proxied req)) reqWriteExcludeHeader))
  /\ (forall line,
        In line (headerLines (reqHeader (proxied req)) reqWriteExcludeHeader) ->
        exists k v,
          line = k +:+ ": " +:+ v +:+ crlf
          /\ is_Some (reqHeader (proxied req) !! k)
          /\ forall name,
               hopName (reqHeader req) name ->
               CanonicalMIMEHeaderKey name <> "Forwarded" ->
               CanonicalMIMEHeaderKey name <> "Via" ->
               k <> CanonicalMIMEHeaderKey name).
Proof.
  intros Hm Hhost Hguard Hdump.
  split; [|split; [|split; [|split; [|split]]]].
  - unfold run.
    rewrite (proj2 (ServeHTTP_answers_locally p env req fresh Hhost Hguard) Hm content Hdump).
    reflexivity.
  - unfold DumpRequest in Hdump.
    destruct (bodyErr (reqBody (proxied req))); [discriminate|].
    injection Hdump as <-. reflexivity.
  - unfold dumpRequestLine, proxied.
    rewrite withHeader_Method, outbound_Method, Hm. reflexivity.
  - eexists. split; [apply proxyHeaders_lookup_Forwarded|].
    apply In_headerLines. do 3 eexists.
    split; [apply proxyHeaders_lookup_Forwarded|].
    split; [reflexivity|]. split; [by left | reflexivity].
  - eexists. split; [apply proxyHeaders_Via|].
    apply In_headerLines. do 3 eexists.
    split; [apply proxyHeaders_Via|].
    split; [reflexivity|]. split; [by left | reflexivity].
  - intros line Hline.
    apply In_headerLines in Hline as (k & vs & v & Hk & _ & _ & ->).
    exists k, (Str.trim (headerNewlineToSpace v)).
    split; [reflexivity|]. split; [by eexists|].
    intros name Hhop HF HV ->.
    rewrite (proxied_hop req name Hhop HF HV) in Hk. discriminate.
Qed.

(** ** The guard and the Forwarded header in the handler *)

(** C1, at [Max-Forwards: 5]: the request is forwarded, but the decremented
    value is stored under the name [Max-Forward]; the Max-Forwards header of
    the outbound request keeps the value 5. *)
Theorem Max_Forwards_5_is_forwarded_unchanged :
  List.map
    (fun r => (reqHeader r !! "Max-Forwards", reqHeader r !! "Max-Forward"))
    (transported (run (ServeHTTP Sample.proxy Sample.env (Sample.options "5"))))
  = [(Some ["5"], Some ["4"])].
Proof. vm_compute. reflexivity. Qed.

(** C2, as the code has it: a TRACE or OPTIONS request whose Max-Forwards
    header is absent, is unparsable or decrements to exactly zero is answered
    by the proxy itself.  For OPTIONS the only call is [WriteHeader(200)];
    for TRACE, when the outbound request can be serialized, the calls are
    [WriteHeader(200)] with the content type message/http and the write of
    the dump.  Nothing is dialled and no transport is invoked. *)
Theorem ServeHTTP_loopback p env req :
  URLHost (outboundURL req) <> EmptyString ->
  is_Some (snd (maxForwards (reqHeader req)))
  \/ fst (maxForwards (reqHeader req)) = 1 ->
  (Method req = MethodOptions ->
   run (ServeHTTP p env req) = [EvWriteHeader StatusOK ∅])
  /\ (Method req = MethodTrace ->
      forall content, DumpRequest (proxied req) = inl content ->
      run (ServeHTTP p env req) =
        [EvWriteHeader StatusOK (HeaderSet ∅ "Content-Type" "message/http");
         EvWrite content])
  /\ (Method req = MethodOptions \/ Method req = MethodTrace ->
      dialled (run (ServeHTTP p env req)) = []
      /\ transported (run (ServeHTTP p env req)) = []
      /\ upgraded (run (ServeHTTP p env req)) = []).
Proof.
  intros Hhost Hguard.
  destruct (ServeHTTP_answers_locally p env req fresh Hhost Hguard) as [HO HT].
  split; [|split].
  - intros Hm. unfold run. by rewrite (HO Hm).
  - intros Hm content Hdump. unfold run. by rewrite (HT Hm content Hdump).
  - intros [Hm|Hm].
    + unfold run. by rewrite (HO Hm).
    + destruct (DumpRequest (proxied req)) as [content|err] eqn:Hdump.
      * unfold run. by rewrite (HT Hm content eq_refl).
      * clear HO HT. pose proof (guard_loops req Hguard) as Hloop.
        unfold run, ServeHTTP.
        rewrite outbound_URL, (host_test _ Hhost).
        rewrite withHeader_Method, outbound_Method, Hm.
        change (String.eqb MethodTrace MethodConnect) with false.
        change (String.eqb MethodTrace MethodTrace) with true.
        cbv beta iota zeta. simpl orb. cbv iota.
        fold (proxied req).
        destruct (maxForwards (reqHeader (proxied req))) as [max e].
        rewrite Hloop. unfold serveTRACE. rewrite Hdump. done.
Qed.

(** At [Max-Forwards: 0] the request goes to the transport with the header
    [Max-Forward: -1]; and a TRACE request whose header is unparsable and
    whose body cannot be read gets no 200: the handler panics before any
    call. *)
Lemma ServeHTTP_loopback_counterexample :
  List.map (fun r => reqHeader r !! "Max-Forward")
    (transported (run (ServeHTTP Sample.proxy Sample.env (Sample.options "0"))))
  = [Some ["-1"]]
  /\ ServeHTTP Sample.proxy Sample.env
       (Sample.request "TRACE" (<["Max-Forwards" := ["x"]]> ∅) Sample.brokenBody)
       fresh
     = Panicked (Some (ErrIO "unexpected EOF")) fresh.
Proof. vm_compute. done. Qed.

Lemma ServeHTTP_loopback_witness :
  is_Some (snd (maxForwards (reqHeader Sample.trace)))
  /\ run (ServeHTTP Sample.proxy Sample.env Sample.trace) =
     [EvWriteHeader StatusOK (HeaderSet ∅ "Content-Type" "message/http");
      EvWrite
        ("TRACE http://example.com/ HTTP/1.1" +:+ crlf
         +:+ "Forwarded: proto=http;for=10.0.0.1;by=127.0.0.1:80" +:+ crlf
         +:+ "Via: 1.0 127.0.0.1:80" +:+ crlf +:+ crlf)].
Proof.
  split; [by eexists|].
  apply (proj1 (proj2 (ServeHTTP_loopback Sample.proxy Sample.env Sample.trace
                  ltac:(discriminate) ltac:(left; by eexists)))).
  - reflexivity.
  - vm_compute. reflexivity.
Defined.


(** ** The handler at sample requests *)

Lemma ServeHTTP_no_host_witness :
  URLHost (outboundURL Sample.noHost) = EmptyString
  /\ run (ServeHTTP Sample.proxy Sample.env Sample.noHost)
     = [EvWriteHeader StatusBadRequest ∅]
  /\ dialled (run (ServeHTTP Sample.proxy Sample.env Sample.noHost)) = []
  /\ transported (run (ServeHTTP Sample.proxy Sample.env Sample.noHost)) = []
  /\ upgraded (run (ServeHTTP Sample.proxy Sample.env Sample.noHost)) = [].
Proof.
  split; [reflexivity|].
  apply (ServeHTTP_no_host Sample.proxy Sample.env Sample.noHost fresh).
  reflexivity.
Defined.


(** With [Connection: Via] the name Via is hop-by-hop for the request, and
    the request given to the transport has a Via header; with
    [Connection: X-Foo] and a backend that answers with an X-Foo header,
    the client gets this header. *)
Lemma hop_by_hop_counterexample :
  headerTokens (HeaderValues (reqHeader (Sample.getListing "Via")) "Connection")
  = ["Via"]
  /\ List.map (fun r => reqHeader r !! "Via")
       (transported (run (ServeHTTP Sample.proxy Sample.env (Sample.getListing "Via"))))
     = [Some ["1.0 127.0.0.1:80"]]
  /\ headerTokens (HeaderValues (reqHeader (Sample.getListing "X-Foo")) "Connection")
     = ["X-Foo"]
  /\ List.map (fun sh => (fst sh, snd sh !! "X-Foo"))
       (responses (run (ServeHTTP Sample.proxy Sample.env (Sample.getListing "X-Foo"))))
     = [(200, Some ["1"])].
Proof. vm_compute. done. Qed.

Lemma serveUpgrade_not_switched_witness :
  serveUpgrade Sample.proxy Sample.env Sample.upgradeRequest fresh =
    Returned tt
      (mkState (<["X-Foo" := ["1"]]> ∅)
         [EvDial "tcp" "example.com";
          EvConnRoundTrip Sample.upgradeRequest;
          EvWriteHeader 200 (<["X-Foo" := ["1"]]> ∅);
          EvCopyBody (mkBody "hi" None);
          EvCloseBody;
          EvCloseBackend]).
Proof.
  rewrite (serveUpgrade_not_switched Sample.proxy Sample.env Sample.upgradeRequest
             fresh Sample.backendResponse eq_refl eq_refl ltac:(discriminate)).
  vm_compute. reflexivity.
Defined.

Lemma serveUpgrade_response_before_hijack_witness :
  calls (resultState
           (serveUpgrade Sample.proxy Sample.envSwitching Sample.upgradeRequest
              (mkState ∅ [])))
  = [EvDial "tcp" "example.com";
     EvConnRoundTrip Sample.upgradeRequest;
     EvWriteHeader 101 (resHeader Sample.switching);
     EvCopyBody Sample.emptyBody;
     EvCloseBody]
    ++ EvHijack :: [EvFlush; EvRelay; EvCloseFrontend; EvCloseBackend]
  /\ exists res,
       ConnTransport Sample.envSwitching Sample.upgradeRequest = inl res
       /\ StatusCode res = StatusSwitchingProtocols
       /\ [EvDial "tcp" "example.com";
           EvConnRoundTrip Sample.upgradeRequest;
           EvWriteHeader 101 (resHeader Sample.switching);
           EvCopyBody Sample.emptyBody;
           EvCloseBody] =
          [EvDial "tcp" (URLHost (reqURL Sample.upgradeRequest))]
          ++ (if String.eqb (URLScheme (reqURL Sample.upgradeRequest)) "https"
              then [EvTLSClient] else [])
          ++ [EvConnRoundTrip Sample.upgradeRequest;
              EvWriteHeader (StatusCode res)
                (copyHeader ∅ (upgradeResponseHeader res));
              EvCopyBody (resBody res);
              EvCloseBody].
Proof.
  assert (H : calls (resultState
           (serveUpgrade Sample.proxy Sample.envSwitching Sample.upgradeRequest
              (mkState ∅ [])))
    = [EvDial "tcp" "example.com";
       EvConnRoundTrip Sample.upgradeRequest;
       EvWriteHeader 101 (resHeader Sample.switching);
       EvCopyBody Sample.emptyBody;
       EvCloseBody]
      ++ EvHijack :: [EvFlush; EvRelay; EvCloseFrontend; EvCloseBackend])
    by (vm_compute; reflexivity).
  split; [exact H|].
  exact (serveUpgrade_response_before_hijack Sample.proxy Sample.envSwitching
           Sample.upgradeRequest ∅ _ _ H).
Defined.

(** A TRACE request whose body cannot be read: the handler panics; it
    makes no call at all, and writes no status 500. *)
Lemma serveTRACE_dump_failure_counterexample :
  DumpRequest (proxied Sample.traceBroken) = inr (ErrIO "unexpected EOF")
  /\ ServeHTTP Sample.proxy Sample.env Sample.traceBroken fresh
     = Panicked (Some (ErrIO "unexpected EOF")) fresh
  /\ responses (run (ServeHTTP Sample.proxy Sample.env Sample.traceBroken)) = [].
Proof. vm_compute. done. Qed.

Lemma serveTRACE_dump_failure_witness :
  DumpRequest (proxied Sample.traceBroken) = inr (ErrIO "unexpected EOF")
  /\ serveTRACE (proxied Sample.traceBroken) fresh
     = Panicked (Some (ErrIO "unexpected EOF")) fresh.
Proof.
  split; [reflexivity|].
  apply (serveTRACE_dump_failure (proxied Sample.traceBroken) fresh).
  reflexivity.
Defined.

Lemma TRACE_loopback_dump_witness :
  DumpRequest (proxied Sample.trace) =
    inl ("TRACE http://example.com/ HTTP/1.1" +:+ crlf
         +:+ "Forwarded: proto=http;for=10.0.0.1;by=127.0.0.1:80" +:+ crlf
         +:+ "Via: 1.0 127.0.0.1:80" +:+ crlf +:+ crlf)
  /\ run (ServeHTTP Sample.proxy Sample.env Sample.trace) =
     [EvWriteHeader StatusOK (HeaderSet ∅ "Content-Type" "message/http");
      EvWrite
        ("TRACE http://example.com/ HTTP/1.1" +:+ crlf
         +:+ "Forwarded: proto=http;for=10.0.0.1;by=127.0.0.1:80" +:+ crlf
         +:+ "Via: 1.0 127.0.0.1:80" +:+ crlf +:+ crlf)].
Proof.
  assert (Hdump : DumpRequest (proxied Sample.trace) =
    inl ("TRACE http://example.com/ HTTP/1.1" +:+ crlf
         +:+ "Forwarded: proto=http;for=10.0.0.1;by=127.0.0.1:80" +:+ crlf
         +:+ "Via: 1.0 127.0.0.1:80" +:+ crlf +:+ crlf))
    by (vm_compute; reflexivity).
  split; [exact Hdump|].
  exact (proj1 (TRACE_loopback_dump Sample.proxy Sample.env Sample.trace _
                  eq_refl ltac:(discriminate) ltac:(left; by eexists) Hdump)).
Defined.

(** * Further properties of the handler *)

(** ** [serveCONNECT] *)

(** X1: when the backend cannot be dialled, [serveCONNECT] answers 502 and
    stops: the body of the request is not read, the client connection is
    not taken over, and the deferred [cancel] and [join.Wait] run. *)
Theorem serveCONNECT_dial_failure p env req s err :
  dialer p env "tcp" (URLHost (reqURL req)) = Some err ->
  serveCONNECT p env req s =
    Returned tt
      (mkState (wHeader s)
         (calls s
          ++ [EvDial "tcp" (URLHost (reqURL req));
              EvWriteHeader StatusBadGateway (wHeader s);
              EvCancel;
              EvJoinWait])).
Proof.
  intros Hdial. unfold serveCONNECT. unfold_effects. simpl.
  rewrite Hdial. simpl. unfold_effects; simpl; rewrite <- ?app_assoc; reflexivity.
Qed.

(** X2: when the backend is dialled and the client connection is taken
    over, [serveCONNECT] discards and closes the body, writes the status
    200, takes the connection over, relays, and then closes the client
    connection before the backend connection; [cancel] and [join.Wait]
    come last.  The header map of the response writer is not touched. *)
Theorem serveCONNECT_tunnel p env req s :
  dialer p env "tcp" (URLHost (reqURL req)) = None ->
  Hijack env = Hijacked ->
  serveCONNECT p env req s =
    Returned tt
      (mkState (wHeader s)
         (calls s
          ++ [EvDial "tcp" (URLHost (reqURL req));
              EvDiscardBody;
              EvCloseBody;
              EvWriteHeader StatusOK (wHeader s);
              EvHijack;
              EvRelay;
              EvCloseFrontend;
              EvCloseBackend;
              EvCancel;
              EvJoinWait])).
Proof.
  intros Hdial Hhijack. unfold serveCONNECT. unfold_effects. simpl.
  rewrite Hdial. simpl. rewrite Hhijack. simpl.
  unfold_effects; simpl; rewrite <- ?app_assoc; reflexivity.
Qed.

(** X3: when the take-over fails after the dial, [serveCONNECT] panics,
    with the error of [Hijack] if there is one; the status 200 is already
    written, no relay starts, and the deferred calls still close the
    backend connection. *)
Theorem serveCONNECT_hijack_failure p env req s :
  dialer p env "tcp" (URLHost (reqURL req)) = None ->
  Hijack env <> Hijacked ->
  serveCONNECT p env req s =
    Panicked
      (match Hijack env with
       | HijackFailed err => Some err
       | _ => None
       end)
      (mkState (wHeader s)
         (calls s
          ++ [EvDial "tcp" (URLHost (reqURL req));
              EvDiscardBody;
              EvCloseBody;
              EvWriteHeader StatusOK (wHeader s);
              EvHijack;
              EvCloseBackend;
              EvCancel;
              EvJoinWait])).
Proof.
  intros Hdial Hhijack. unfold serveCONNECT. unfold_effects. simpl.
  rewrite Hdial. simpl.
  destruct (Hijack env); simpl; try done; unfold_effects; simpl; rewrite <- ?app_assoc; reflexivity.
Qed.

(** ** [serveUpgrade] *)

(** X4: when the backend cannot be dialled, [serveUpgrade] answers 502 and
    makes no other call: no exchange, no take-over, nothing to close. *)
Theorem serveUpgrade_dial_failure p env req s err :
  dialer p env "tcp" (URLHost (reqURL req)) = Some err ->
  serveUpgrade p env req s =
    Returned tt
      (mkState (wHeader s)
         (calls s
          ++ [EvDial "tcp" (URLHost (reqURL req));
              EvWriteHeader StatusBadGateway (wHeader s)])).
Proof.
  intros Hdial. unfold serveUpgrade. unfold_effects. simpl.
  rewrite Hdial. simpl. unfold_effects; simpl; rewrite <- ?app_assoc; reflexivity.
Qed.

(** X5: when the exchange over the dialled connection fails,
    [serveUpgrade] answers 502 with the header map as it was, does not try
    to take the client connection over, and closes the backend
    connection. *)
Theorem serveUpgrade_exchange_failure p env req s err :
  dialer p env "tcp" (URLHost (reqURL req)) = None ->
  ConnTransport env req = inr err ->
  serveUpgrade p env req s =
    Returned tt
      (mkState (wHeader s)
         (calls s
          ++ [EvDial "tcp" (URLHost (reqURL req))]
          ++ (if String.eqb (URLScheme (reqURL req)) "https" then [EvTLSClient] else [])
          ++ [EvConnRoundTrip req;
              EvWriteHeader StatusBadGateway (wHeader s);
              EvCloseBackend])).
Proof.
  intros Hdial Hres. unfold serveUpgrade. unfold_effects. simpl.
  rewrite Hdial.
  destruct (String.eqb (URLScheme (reqURL req)) "https"); simpl;
    rewrite Hres; simpl; unfold_effects; simpl; rewrite <- ?app_assoc; reflexivity.
Qed.

(** X6: when the backend answers 101, the client connection is taken over
    and the flush succeeds, [serveUpgrade] relays the response, takes the
    connection over, flushes, relays, and closes the client connection
    before the backend connection. *)
Theorem serveUpgrade_switched p env req s res :
  dialer p env "tcp" (URLHost (reqURL req)) = None ->
  ConnTransport env req = inl res ->
  StatusCode res = StatusSwitchingProtocols ->
  Hijack env = Hijacked ->
  Flush env = None ->
  serveUpgrade p env req s =
    Returned tt
      (mkState (copyHeader (wHeader s) (upgradeResponseHeader res))
         (calls s
          ++ [EvDial "tcp" (URLHost (reqURL req))]
          ++ (if String.eqb (URLScheme (reqURL req)) "https" then [EvTLSClient] else [])
          ++ [EvConnRoundTrip req;
              EvWriteHeader StatusSwitchingProtocols
                (copyHeader (wHeader s) (upgradeResponseHeader res));
              EvCopyBody (resBody res);
              EvCloseBody;
              EvHijack;
              EvFlush;
              EvRelay;
              EvCloseFrontend;
              EvCloseBackend])).
Proof.
  intros Hdial Hres Hstatus Hhijack Hflush.
  unfold serveUpgrade. unfold_effects. simpl.
  rewrite Hdial.
  destruct (String.eqb (URLScheme (reqURL req)) "https"); simpl;
    rewrite Hres; simpl; rewrite Hstatus; simpl; rewrite Hhijack; simpl;
    rewrite Hflush; simpl; unfold_effects; simpl; rewrite <- ?app_assoc; reflexivity.
Qed.

(** X7: when the backend answers 101 and [Hijack] returns an error,
    [serveUpgrade] calls [WriteHeader(500)] although the status 101 is
    already written; it starts no relay, closes no client connection, and
    closes the backend connection. *)
Theorem serveUpgrade_hijack_failure p env req s res err :
  dialer p env "tcp" (URLHost (reqURL req)) = None ->
  ConnTransport env req = inl res ->
  StatusCode res = StatusSwitchingProtocols ->
  Hijack env = HijackFailed err ->
  serveUpgrade p env req s =
    Returned tt
      (mkState (copyHeader (wHeader s) (upgradeResponseHeader res))
         (calls s
          ++ [EvDial "tcp" (URLHost (reqURL req))]
          ++ (if String.eqb (URLScheme (reqURL req)) "https" then [EvTLSClient] else [])
          ++ [EvConnRoundTrip req;
              EvWriteHeader StatusSwitchingProtocols
                (copyHeader (wHeader s) (upgradeResponseHeader res));
              EvCopyBody (resBody res);
              EvCloseBody;
              EvHijack;
              EvWriteHeader StatusInternalServerError
                (copyHeader (wHeader s) (upgradeResponseHeader res));
              EvCloseBackend])).
Proof.
  intros Hdial Hres Hstatus Hhijack.
  unfold serveUpgrade. unfold_effects. simpl.
  rewrite Hdial.
  destruct (String.eqb (URLScheme (reqURL req)) "https"); simpl;
    rewrite Hres; simpl; rewrite Hstatus; simpl; rewrite Hhijack; simpl;
    unfold_effects; simpl; rewrite <- ?app_assoc; reflexivity.
Qed.

(** X8: when the backend answers 101 and the flush of the taken-over
    connection fails, [serveUpgrade] starts no relay and closes both
    connections, the client's first. *)
Theorem serveUpgrade_flush_failure p env req s res err :
  dialer p env "tcp" (URLHost (reqURL req)) = None ->
  ConnTransport env req = inl res ->
  StatusCode res = StatusSwitchingProtocols ->
  Hijack env = Hijacked ->
  Flush env = Some err ->
  serveUpgrade p env req s =
    Returned tt
      (mkState (copyHeader (wHeader s) (upgradeResponseHeader res))
         (calls s
          ++ [EvDial "tcp" (URLHost (reqURL req))]
          ++ (if String.eqb (URLScheme (reqURL req)) "https" then [EvTLSClient] else [])
          ++ [EvConnRoundTrip req;
              EvWriteHeader StatusSwitchingProtocols
                (copyHeader (wHeader s) (upgradeResponseHeader res));
              EvCopyBody (resBody res);
              EvCloseBody;
              EvHijack;
              EvFlush;
              EvCloseFrontend;
              EvCloseBackend])).
Proof.
  intros Hdial Hres Hstatus Hhijack Hflush.
  unfold serveUpgrade. unfold_effects. simpl.
  rewrite Hdial.
  destruct (String.eqb (URLScheme (reqURL req)) "https"); simpl;
    rewrite Hres; simpl; rewrite Hstatus; simpl; rewrite Hhijack; simpl;
    rewrite Hflush; simpl; unfold_effects; simpl; rewrite <- ?app_assoc; reflexivity.
Qed.

(** X9: whatever the collaborators answer, a run of [serveUpgrade] that
    dialled the backend ends with the close of the backend connection, also
    when it panics; the connection is wrapped in TLS exactly when the
    scheme of the request is [https], and at most once. *)
Theorem serveUpgrade_closes_backend p env req wh :
  dialer p env "tcp" (URLHost (reqURL req)) = None ->
  (exists l,
     calls (resultState (serveUpgrade p env req (mkState wh []))) =
     EvDial "tcp" (URLHost (reqURL req)) :: l ++ [EvCloseBackend])
  /\ tlsWraps (calls (resultState (serveUpgrade p env req (mkState wh [])))) =
     (if String.eqb (URLScheme (reqURL req)) "https" then [EvTLSClient] else []).
Proof.
  intros Hdial. unfold serveUpgrade. unfold_effects. simpl.
  rewrite Hdial.
  destruct (String.eqb (URLScheme (reqURL req)) "https"); simpl;
    (destruct (ConnTransport env req) as [res|]; simpl;
      [destruct (StatusCode res =? StatusSwitchingProtocols); simpl;
        [destruct (Hijack env); simpl; [| |destruct (Flush env); simpl]|]|]);
    (split; [|reflexivity]);
    match goal with
    | |- exists l, _ :: ?t = _ :: l ++ [_] =>
        exists (removelast t); reflexivity
    end.
Qed.


(** ** The routes of [ServeHTTP] *)

Lemma proxied_Method req : Method (proxied req) = Method req.
Proof. reflexivity. Qed.

Lemma proxied_URL req : reqURL (proxied req) = outboundURL req.
Proof. reflexivity. Qed.

Lemma ServeHTTP_unfold p env req :
  URLHost (outboundURL req) <> EmptyString ->
  ServeHTTP p env req =
    if String.eqb (Method req) MethodConnect then
      serveCONNECT p env (proxied req)
    else if String.eqb (Method req) MethodTrace
            || String.eqb (Method req) MethodOptions then
      let '(max, err) := maxForwards (reqHeader (proxied req)) in
      if (wrap64 (max - 1) =? 0) || bool_decide (is_Some err) then
        if String.eqb (Method req) MethodTrace
        then serveTRACE (proxied req)
        else serveOPTIONS (proxied req)
      else
        forwardRequest p env req
          (withHeader (proxied req)
             (HeaderSet (reqHeader (proxied req)) "Max-Forward"
                (Itoa (wrap64 (max - 1)))))
    else forwardRequest p env req (proxied req).
Proof.
  intros Hhost. unfold ServeHTTP.
  rewrite outbound_URL, (host_test _ Hhost). reflexivity.
Qed.

(** A request whose method is neither CONNECT, TRACE nor OPTIONS goes to
    the forwarding as it is after the proxy headers. *)
Lemma ServeHTTP_plain p env req :
  URLHost (outboundURL req) <> EmptyString ->
  Method req <> MethodConnect ->
  Method req <> MethodTrace ->
  Method req <> MethodOptions ->
  ServeHTTP p env req = forwardRequest p env req (proxied req).
Proof.
  intros Hhost HC HT HO. rewrite (ServeHTTP_unfold _ _ _ Hhost).
  apply String.eqb_neq in HC, HT, HO. by rewrite HC, HT, HO.
Qed.

Lemma connectionUpgrade_test req upgrade :
  connectionUpgrade (reqHeader req) = upgrade ->
  negb (String.length (connectionUpgrade (reqHeader req)) =? 0)%nat =
  negb (Str.is_empty upgrade).
Proof. intros <-. destruct (connectionUpgrade (reqHeader req)); reflexivity. Qed.

(** X11: a CONNECT request with a target host is never given to a
    transport and never meets the Max-Forwards guard; the only address
    dialled is the host of the outbound URL. *)
Theorem ServeHTTP_CONNECT p env req :
  URLHost (outboundURL req) <> EmptyString ->
  Method req = MethodConnect ->
  ServeHTTP p env req = serveCONNECT p env (proxied req)
  /\ dialled (run (ServeHTTP p env req)) = [URLHost (outboundURL req)]
  /\ transported (run (ServeHTTP p env req)) = []
  /\ upgraded (run (ServeHTTP p env req)) = [].
Proof.
  intros Hhost Hm.
  assert (Heq : ServeHTTP p env req = serveCONNECT p env (proxied req)).
  { rewrite (ServeHTTP_unfold _ _ _ Hhost), Hm. reflexivity. }
  split; [exact Heq|]. rewrite Heq.
  unfold run, serveCONNECT. unfold_effects. simpl.
  destruct (dialer p env "tcp" (URLHost (outboundURL req))); simpl;
    [|destruct (Hijack env); simpl]; done.
Qed.

(** X12: for a request whose method is neither CONNECT, TRACE nor OPTIONS
    and that asks for no upgrade, a failure of the transport is answered
    with 502: the calls are the exchange and [WriteHeader(502)]. *)
Theorem ServeHTTP_transport_failure p env req err :
  URLHost (outboundURL req) <> EmptyString ->
  Method req <> MethodConnect ->
  Method req <> MethodTrace ->
  Method req <> MethodOptions ->
  connectionUpgrade (reqHeader req) = EmptyString ->
  roundTripper p env (proxied req) = inr err ->
  run (ServeHTTP p env req) =
    [EvRoundTrip (proxied req); EvWriteHeader StatusBadGateway ∅].
Proof.
  intros Hhost HC HT HO Hup Hres.
  rewrite (ServeHTTP_plain _ _ _ Hhost HC HT HO).
  unfold run, forwardRequest.
  rewrite (connectionUpgrade_test _ _ Hup). simpl.
  unfold_effects. simpl. rewrite Hres. reflexivity.
Qed.

(** X13: for such a request, a response of the transport is relayed: the
    status as it is, the headers without the hop-by-hop ones, then the
    body, then the close of the body; the trailers, stripped likewise, are
    put into the header map once the body is copied. *)
Theorem ServeHTTP_relays_response p env req res :
  URLHost (outboundURL req) <> EmptyString ->
  Method req <> MethodConnect ->
  Method req <> MethodTrace ->
  Method req <> MethodOptions ->
  connectionUpgrade (reqHeader req) = EmptyString ->
  roundTripper p env (proxied req) = inl res ->
  ServeHTTP p env req fresh =
    Returned tt
      (mkState
         (copyHeader (deleteHopFields (resHeader res))
            (deleteHopFields (Trailer res)))
         [EvRoundTrip (proxied req);
          EvWriteHeader (StatusCode res) (deleteHopFields (resHeader res));
          EvCopyBody (resBody res);
          EvCloseBody]).
Proof.
  intros Hhost HC HT HO Hup Hres.
  rewrite (ServeHTTP_plain _ _ _ Hhost HC HT HO).
  unfold forwardRequest.
  rewrite (connectionUpgrade_test _ _ Hup). simpl.
  unfold_effects. simpl. rewrite Hres. simpl.
  rewrite !copyHeader_empty. reflexivity.
Qed.


(** ** What no run of the handler does *)

Arguments well_behaved : simpl never.

Ltac own_status :=
  left; unfold ownStatuses; simpl; tauto.

Ltac well_behaved_list :=
  unfold well_behaved; simpl;
  repeat match goal with
    | |- _ /\ _ => split
    | |- (_ <= _)%nat => lia
    | |- Forall _ [] => constructor
    | |- Forall _ (_ :: _) => constructor
    end;
  try (by left); try (by right); try own_status.

Lemma well_behaved_WriteHeader p env host status :
  In status ownStatuses ->
  well_behaved p env host (run (WriteHeader status)).
Proof.
  intros Hin. unfold run. unfold_effects. simpl. by well_behaved_list.
Qed.

Lemma well_behaved_TRACE p env host r :
  well_behaved p env host (run (serveTRACE r)).
Proof.
  unfold run, serveTRACE.
  destruct (DumpRequest r); unfold_effects; simpl; well_behaved_list.
Qed.

Lemma well_behaved_CONNECT p env r :
  well_behaved p env (URLHost (reqURL r)) (run (serveCONNECT p env r)).
Proof.
  unfold run, serveCONNECT. unfold_effects. simpl.
  destruct (dialer p env "tcp" (URLHost (reqURL r))) eqn:Hdial; simpl;
    [|destruct (Hijack env); simpl]; well_behaved_list;
    right; by repeat split.
Qed.

Lemma well_behaved_Upgrade p env r :
  well_behaved p env (URLHost (reqURL r)) (run (serveUpgrade p env r)).
Proof.
  unfold run, serveUpgrade. unfold_effects. simpl.
  destruct (dialer p env "tcp" (URLHost (reqURL r))) eqn:Hdial; simpl;
    [by well_behaved_list|].
  destruct (String.eqb (URLScheme (reqURL r)) "https"); simpl;
    (destruct (ConnTransport env r) as [res|] eqn:Hres; simpl;
      [destruct (StatusCode res =? StatusSwitchingProtocols); simpl;
        [destruct (Hijack env); simpl; [| |destruct (Flush env); simpl]|]|]);
    well_behaved_list;
    try (right; by repeat split);
    try (right; exists r, res; by split; [right|]).
Qed.

Lemma well_behaved_forwardRequest p env req outreq :
  well_behaved p env (URLHost (reqURL outreq))
    (run (forwardRequest p env req outreq)).
Proof.
  unfold forwardRequest.
  destruct (negb (String.length (connectionUpgrade (reqHeader req)) =? 0)%nat).
  { apply (well_behaved_Upgrade p env (withHeader outreq _)). }
  unfold run. unfold_effects. simpl.
  destruct (roundTripper p env outreq) as [res|] eqn:Hres; simpl;
    well_behaved_list.
  right. exists outreq, res. by split; [left|].
Qed.

Lemma ServeHTTP_well_behaved p env req :
  well_behaved p env (URLHost (outboundURL req)) (run (ServeHTTP p env req)).
Proof.
  destruct (ServeHTTP_route p env req)
    as [-> | [-> | [-> | [-> | [-> | [v ->]]]]]].
  - apply well_behaved_WriteHeader. unfold ownStatuses. simpl. tauto.
  - apply (well_behaved_CONNECT p env (proxied req)).
  - apply well_behaved_TRACE.
  - apply well_behaved_WriteHeader. unfold ownStatuses. simpl. tauto.
  - apply (well_behaved_forwardRequest p env req (proxied req)).
  - apply (well_behaved_forwardRequest p env req (withHeader (proxied req) _)).
Qed.

(** X15: in every run of the handler at most one request goes to a
    backend, through the transport or over one dialled connection, never
    both; at most one address is dialled, the host of the outbound URL. *)
Theorem ServeHTTP_one_backend p env req :
  (length (transported (run (ServeHTTP p env req)))
   + length (upgraded (run (ServeHTTP p env req))) <= 1)%nat
  /\ (transported (run (ServeHTTP p env req)) = []
      \/ dialled (run (ServeHTTP p env req)) = [])
  /\ (dialled (run (ServeHTTP p env req)) = []
      \/ dialled (run (ServeHTTP p env req)) = [URLHost (outboundURL req)]).
Proof.
  destruct (ServeHTTP_well_behaved p env req) as (H1 & H2 & H3 & _). done.
Qed.



(** ** When the handler returns *)






(** ** The guard when it lets the request pass *)

(** X19: a TRACE or OPTIONS request whose Max-Forwards value parses and
    does not decrement to zero goes on to the forwarding; the decremented
    value, with the wrap-around of a Go [int], is stored under the name
    [Max-Forward], and every other header, Max-Forwards included, stays as
    it is after the proxy headers. *)
Theorem ServeHTTP_guard_forwards p env req max :
  URLHost (outboundURL req) <> EmptyString ->
  Method req = MethodTrace \/ Method req = MethodOptions ->
  maxForwards (reqHeader (proxied req)) = (max, None) ->
  wrap64 (max - 1) <> 0 ->
  exists outreq,
    ServeHTTP p env req = forwardRequest p env req outreq
    /\ reqHeader outreq !! "Max-Forward" = Some [Itoa (wrap64 (max - 1))]
    /\ (forall k, k <> "Max-Forward" ->
          reqHeader outreq !! k = reqHeader (proxied req) !! k)
    /\ reqURL outreq = outboundURL req.
Proof.
  intros Hhost Hm Hmax Hnz. eexists. split.
  { rewrite (ServeHTTP_unfold _ _ _ Hhost).
    assert (HC : String.eqb (Method req) MethodConnect = false)
      by (destruct Hm as [-> | ->]; reflexivity).
    assert (HTO : String.eqb (Method req) MethodTrace
                  || String.eqb (Method req) MethodOptions = true)
      by (destruct Hm as [-> | ->]; reflexivity).
    rewrite HC, HTO, Hmax.
    apply Z.eqb_neq in Hnz. rewrite Hnz. cbn [orb].
    rewrite bool_decide_eq_false_2; [reflexivity|].
    intros [e He]. discriminate He. }
  rewrite withHeader_Header, withHeader_URL, proxied_URL.
  split; [|split; [|reflexivity]].
  - change "Max-Forward" with (CanonicalMIMEHeaderKey "Max-Forward") at 2.
    apply HeaderSet_lookup_eq.
  - intros k Hk. by apply HeaderSet_lookup_ne.
Qed.

(** ** The scheme and the headers of the outbound request *)

Lemma SplitHostPort_empty :
  SplitHostPort EmptyString = (EmptyString, EmptyString, Some ErrSyntax).
Proof. reflexivity. Qed.

(** X20: for a request whose URL has neither host nor scheme, the host is
    taken from the Host header, and the scheme depends on the listener
    alone: [https] under the [tls] tag and [http] otherwise, whatever port
    the Host header names. *)
Theorem outbound_origin_form req :
  URLHost (reqURL req) = EmptyString ->
  URLScheme (reqURL req) = EmptyString ->
  URLHost (reqURL (outbound req)) = Host req
  /\ URLScheme (reqURL (outbound req)) =
     (if String.eqb (fst (SplitNetAddr (requestLocalAddr req))) "tls"
      then "https" else "http")
  /\ URLPath (reqURL (outbound req)) = URLPath (reqURL req)
  /\ URLRawQuery (reqURL (outbound req)) = URLRawQuery (reqURL req).
Proof.
  intros Hhost Hscheme. rewrite outbound_URL. unfold outboundURL.
  rewrite Hhost. simpl. rewrite Hscheme. simpl.
  split; [reflexivity|]. split; [|split; reflexivity].
  unfold guessScheme. rewrite SplitHostPort_empty. simpl.
  by destruct (String.eqb (fst (SplitNetAddr (requestLocalAddr req))) "tls").
Qed.

(** A request whose URL has a scheme and a host keeps its URL: the Host
    header and the addresses of the connection have no part in the target. *)
Lemma outbound_absolute_form req :
  URLHost (reqURL req) <> EmptyString ->
  URLScheme (reqURL req) <> EmptyString ->
  reqURL (outbound req) = reqURL req.
Proof.
  intros Hhost Hscheme. rewrite outbound_URL. unfold outboundURL.
  destruct (URLHost (reqURL req)) eqn:Eh; [done|]. simpl.
  destruct (URLScheme (reqURL req)) eqn:Es; [done|]. reflexivity.
Qed.

Lemma SplitHostPort_error hostport err :
  snd (SplitHostPort hostport) = Some err ->
  fst (SplitHostPort hostport) = (EmptyString, EmptyString).
Proof.
  unfold SplitHostPort.
  destruct (Str.last_index_byte ":" hostport) as [i|]; [|done].
  repeat match goal with
    | |- context [match ?x with _ => _ end] => destruct x; try done
    end.
Qed.

(** X21: [guessScheme] answers [https] or [http] and nothing else; the
    [tls] tag of the local address decides alone, and an address that
    does not split into host and port counts as one without port. *)
Theorem guessScheme_total localAddr remoteAddr :
  (guessScheme localAddr remoteAddr = "https"
   \/ guessScheme localAddr remoteAddr = "http")
  /\ (fst (SplitNetAddr localAddr) = "tls" ->
      guessScheme localAddr remoteAddr = "https")
  /\ (fst (SplitNetAddr localAddr) <> "tls" ->
      forall err, snd (SplitHostPort remoteAddr) = Some err ->
      guessScheme localAddr remoteAddr = "http").
Proof.
  unfold guessScheme. split; [|split].
  - repeat match goal with
      | |- context [if ?c then _ else _] => destruct c
      end; tauto.
  - intros ->. reflexivity.
  - intros Htls err Herr. apply String.eqb_neq in Htls. rewrite Htls.
    by rewrite (SplitHostPort_error _ _ Herr).
Qed.

(** X22: the headers of the inbound request that are no hop-by-hop
    headers reach the backend as they are: a field whose name is not the
    canonical form of a name of the fixed set or of a name listed in the
    Connection header, and is none of Forwarded, Via and Max-Forward, has
    in the request given to the transport the values it had. *)
Theorem ServeHTTP_end_to_end p env req r k :
  In r (transported (run (ServeHTTP p env req))) ->
  k ∉ CanonicalMIMEHeaderKey
        <$> (headerTokens (HeaderValues (reqHeader req) "Connection") ++ hopFields) ->
  k ∉ ["Forwarded"; "Via"; "Max-Forward"] ->
  reqHeader r !! k = reqHeader req !! k.
Proof.
  intros Hin Hhop Hown.
  apply not_elem_of_cons in Hown as [HnF Hown].
  apply not_elem_of_cons in Hown as [HnV Hown].
  apply not_elem_of_cons in Hown as [HnM _].
  rewrite fmap_app in Hhop. apply not_elem_of_app in Hhop as [Hlisted Hfixed].
  assert (Hproxied : reqHeader (proxied req) !! k = reqHeader req !! k).
  { unfold proxied. rewrite withHeader_Header, proxyHeaders_lookup_ne by done.
    rewrite outbound_Header, copyHeader_empty. unfold deleteHopFields.
    rewrite !delAll_lookup. by rewrite !decide_False. }
  destruct (ServeHTTP_forward_route p env req) as (outreq & Hout & HT & _).
  rewrite (HT _ Hin).
  destruct Hout as [-> | [v ->]]; [done|].
  rewrite withHeader_Header, HeaderSet_lookup_ne; done.
Qed.

(** ** The further properties at sample requests *)

Lemma serveCONNECT_dial_failure_witness :
  run (serveCONNECT Sample.proxy Failing.envNoDial Failing.connect) =
    [EvDial "tcp" "example.com:443";
     EvWriteHeader StatusBadGateway ∅;
     EvCancel;
     EvJoinWait].
Proof.
  unfold run.
  rewrite (serveCONNECT_dial_failure Sample.proxy Failing.envNoDial
             Failing.connect fresh (ErrIO "connection refused") eq_refl).
  reflexivity.
Defined.

Lemma serveCONNECT_tunnel_witness :
  run (serveCONNECT Sample.proxy Sample.env Failing.connect) =
    [EvDial "tcp" "example.com:443"; EvDiscardBody; EvCloseBody;
     EvWriteHeader StatusOK ∅; EvHijack; EvRelay; EvCloseFrontend;
     EvCloseBackend; EvCancel; EvJoinWait].
Proof.
  unfold run.
  rewrite (serveCONNECT_tunnel Sample.proxy Sample.env Failing.connect fresh
             eq_refl eq_refl).
  reflexivity.
Defined.

Lemma serveCONNECT_hijack_failure_witness :
  serveCONNECT Sample.proxy Failing.envNoHijack Failing.connect fresh =
    Panicked (Some (ErrIO "hijacked twice"))
      (mkState ∅
         [EvDial "tcp" "example.com:443"; EvDiscardBody; EvCloseBody;
          EvWriteHeader StatusOK ∅; EvHijack; EvCloseBackend; EvCancel;
          EvJoinWait]).
Proof.
  rewrite (serveCONNECT_hijack_failure Sample.proxy Failing.envNoHijack
             Failing.connect fresh eq_refl ltac:(discriminate)).
  reflexivity.
Defined.

Lemma serveUpgrade_dial_failure_witness :
  run (serveUpgrade Sample.proxy Failing.envNoDial Sample.upgradeRequest) =
    [EvDial "tcp" "example.com"; EvWriteHeader StatusBadGateway ∅].
Proof.
  unfold run.
  rewrite (serveUpgrade_dial_failure Sample.proxy Failing.envNoDial
             Sample.upgradeRequest fresh (ErrIO "connection refused") eq_refl).
  reflexivity.
Defined.

Lemma serveUpgrade_exchange_failure_witness :
  run (serveUpgrade Sample.proxy Failing.envNoAnswer Sample.upgradeRequest) =
    [EvDial "tcp" "example.com";
     EvConnRoundTrip Sample.upgradeRequest;
     EvWriteHeader StatusBadGateway ∅;
     EvCloseBackend].
Proof.
  unfold run.
  rewrite (serveUpgrade_exchange_failure Sample.proxy Failing.envNoAnswer
             Sample.upgradeRequest fresh (ErrIO "EOF") eq_refl eq_refl).
  reflexivity.
Defined.

Lemma serveUpgrade_switched_witness :
  run (serveUpgrade Sample.proxy Sample.envSwitching Sample.upgradeRequest) =
    [EvDial "tcp" "example.com";
     EvConnRoundTrip Sample.upgradeRequest;
     EvWriteHeader 101 (resHeader Sample.switching);
     EvCopyBody Sample.emptyBody; EvCloseBody;
     EvHijack; EvFlush; EvRelay; EvCloseFrontend; EvCloseBackend].
Proof.
  unfold run.
  rewrite (serveUpgrade_switched Sample.proxy Sample.envSwitching
             Sample.upgradeRequest fresh Sample.switching
             eq_refl eq_refl eq_refl eq_refl eq_refl).
  vm_compute. reflexivity.
Defined.

Lemma serveUpgrade_hijack_failure_witness :
  run (serveUpgrade Sample.proxy Failing.envNoHijack Sample.upgradeRequest) =
    [EvDial "tcp" "example.com";
     EvConnRoundTrip Sample.upgradeRequest;
     EvWriteHeader 101 (resHeader Sample.switching);
     EvCopyBody Sample.emptyBody; EvCloseBody;
     EvHijack;
     EvWriteHeader 500 (resHeader Sample.switching);
     EvCloseBackend].
Proof.
  unfold run.
  rewrite (serveUpgrade_hijack_failure Sample.proxy Failing.envNoHijack
             Sample.upgradeRequest fresh Sample.switching (ErrIO "hijacked twice")
             eq_refl eq_refl eq_refl eq_refl).
  vm_compute. reflexivity.
Defined.

Lemma serveUpgrade_flush_failure_witness :
  run (serveUpgrade Sample.proxy Failing.envNoFlush Sample.upgradeRequest) =
    [EvDial "tcp" "example.com";
     EvConnRoundTrip Sample.upgradeRequest;
     EvWriteHeader 101 (resHeader Sample.switching);
     EvCopyBody Sample.emptyBody; EvCloseBody;
     EvHijack; EvFlush; EvCloseFrontend; EvCloseBackend].
Proof.
  unfold run.
  rewrite (serveUpgrade_flush_failure Sample.proxy Failing.envNoFlush
             Sample.upgradeRequest fresh Sample.switching (ErrIO "broken pipe")
             eq_refl eq_refl eq_refl eq_refl eq_refl).
  vm_compute. reflexivity.
Defined.

Lemma serveUpgrade_closes_backend_witness :
  tlsWraps (calls (resultState
     (serveUpgrade Sample.proxy Failing.envNotAHijacker Sample.upgradeRequest
        (mkState ∅ [])))) = [].
Proof.
  exact (proj2 (serveUpgrade_closes_backend Sample.proxy Failing.envNotAHijacker
                  Sample.upgradeRequest ∅ eq_refl)).
Defined.


Lemma ServeHTTP_CONNECT_witness :
  dialled (run (ServeHTTP Sample.proxy Sample.env Failing.connect))
  = ["example.com:443"].
Proof.
  exact (proj1 (proj2 (ServeHTTP_CONNECT Sample.proxy Sample.env Failing.connect
                         ltac:(discriminate) eq_refl))).
Defined.

Lemma ServeHTTP_transport_failure_witness :
  run (ServeHTTP Sample.proxy Failing.envNoAnswer Failing.get) =
    [EvRoundTrip (proxied Failing.get); EvWriteHeader StatusBadGateway ∅].
Proof.
  exact (ServeHTTP_transport_failure Sample.proxy Failing.envNoAnswer Failing.get
           (ErrIO "EOF") ltac:(discriminate) ltac:(discriminate)
           ltac:(discriminate) ltac:(discriminate) eq_refl eq_refl).
Defined.

Lemma ServeHTTP_relays_response_witness :
  responses (run (ServeHTTP Sample.proxy Sample.env Failing.get)) =
    [(200, <["X-Foo" := ["1"]]> ∅)].
Proof.
  unfold run.
  rewrite (ServeHTTP_relays_response Sample.proxy Sample.env Failing.get
             Sample.backendResponse ltac:(discriminate) ltac:(discriminate)
             ltac:(discriminate) ltac:(discriminate) eq_refl eq_refl).
  vm_compute. reflexivity.
Defined.




Lemma ServeHTTP_guard_forwards_witness :
  maxForwards (reqHeader (proxied (Sample.options "5"))) = (5, None)
  /\ exists outreq,
       ServeHTTP Sample.proxy Sample.env (Sample.options "5") =
         forwardRequest Sample.proxy Sample.env (Sample.options "5") outreq
       /\ reqHeader outreq !! "Max-Forward" = Some ["4"].
Proof.
  assert (Hmax : maxForwards (reqHeader (proxied (Sample.options "5"))) = (5, None))
    by (vm_compute; reflexivity).
  split; [exact Hmax|].
  destruct (ServeHTTP_guard_forwards Sample.proxy Sample.env (Sample.options "5") 5
              ltac:(discriminate) ltac:(by right) Hmax ltac:(discriminate))
    as (outreq & Heq & HMF & _).
  exists outreq. by split.
Defined.

Lemma outbound_origin_form_witness :
  URLHost (reqURL (outbound Failing.originForm)) = "example.com:443"
  /\ URLScheme (reqURL (outbound Failing.originForm)) = "http".
Proof.
  destruct (outbound_origin_form Failing.originForm eq_refl eq_refl)
    as (HH & HS & _).
  by split.
Defined.

Lemma ServeHTTP_end_to_end_witness :
  List.map (fun r => (reqHeader r !! "Accept", reqHeader r !! "Keep-Alive"))
    (transported (run (ServeHTTP Sample.proxy Sample.env Failing.getAccept)))
  = [(Some ["text/html"], None)]
  /\ reqHeader (proxied Failing.getAccept) !! "Accept" = Some ["text/html"].
Proof.
  split; [vm_compute; reflexivity|].
  apply (ServeHTTP_end_to_end Sample.proxy Sample.env Failing.getAccept
           (proxied Failing.getAccept) "Accept").
  - vm_compute. by left.
  - vm_compute. intros H.
    repeat (apply elem_of_cons in H as [H|H]; [discriminate|]).
    by apply elem_of_nil in H.
  - intros H.
    repeat (apply elem_of_cons in H as [H|H]; [discriminate|]).
    by apply elem_of_nil in H.
Defined.
